(** * Points ledger, proximity check-in and redemption flows

    A shallow embedding of the three ledger flows of the AR city backend:

    - [POST /api/checkins]           (src/routes/checkins.js)
    - [POST /api/rewards/:id/redeem] (src/routes/rewards.js)
    - [POST /api/places/:id/redeem]  (src/routes/places.js)

    together with the Mongoose schemas they read and write (User, Place,
    Reward, Checkin, RewardHistory).  The middleware in front of the
    handlers ([auth], [validateCheckin], [validateObjectId]) is not part of
    the embedding: a request is what the handler sees once they have let
    it through, with [req.user.id] the identifier of the authenticated
    user.

    Conventions of the embedding.
    - Distances and coordinates are JavaScript Numbers: IEEE binary64,
      modelled by the kernel's primitive floats, so that comparisons behave
      as in the source on every value, NaN included.
    - Point amounts are integer-valued Numbers and are modelled by [Z].
    - Dates are milliseconds since the epoch, in [Z].
    - The database is a record of collections; an [async] handler is a
      state-passing function over it.  [return res.status(..).json(..)] and
      thrown exceptions are the two ways of leaving a handler early; writes
      made before either of them stay in the database.
    - Storage failures (a lost connection, a full disk) are not modelled:
      every read and write reaches the store.

    A second part, from "The routers around the handlers" on, puts the
    middleware in front of the handlers and adds the routes next to them:
    the coordinate and number sanitizers and validators, [auth],
    [adminOnly], [validateObjectId] and the token blacklist, the bookmark
    routes, the read and delete routes of places and rewards, and the
    points, is-admin, make-admin, reward statistics and leaderboard
    routes of users.js. *)

From Stdlib Require Import ZArith Floats String List Lia.
From stdpp Require Import gmap strings list fin_maps pretty.
From stdpp Require Import sorting.

Local Open Scope Z_scope.
Set Warnings "-inexact-float".

(** ** Documents *)

Abbreviation ObjectId := N (only parsing).
Abbreviation Date := Z (only parsing).

(** [userSchema.rewards]: one snapshot per redeemed reward. *)
Record RedeemedReward := {
  rr_name : string;
  rr_shortDescription : string;
  rr_pointsCost : Z;
  rr_redeemedAt : Date;
  rr_used : bool
}.

(** [userSchema]: the fields the ledger flows touch. *)
Record User := {
  rewardPoints_total : Z;
  user_rewards : list RedeemedReward
}.

(** [placeSchema.redemption]. [pointsCost] may be missing on a stored
    document; the handler guards it with [|| 0]. *)
Record Redemption := {
  eligible : bool;
  redemption_pointsCost : option Z
}.

(** [placeSchema]; [location_coordinates] is the GeoJSON pair
    [[lng, lat]]. *)
Record Place := {
  place_name : string;
  location_coordinates : float * float;
  redemption : option Redemption
}.

(** [rewardSchema]. *)
Record Reward := {
  reward_name : string;
  reward_shortDescription : string;
  pointsCost : Z;
  reward_type : string;
  isActive : bool;
  validUntil : option Date
}.

(** [checkinSchema]. *)
Record Checkin := {
  checkin_id : ObjectId;
  checkin_userId : ObjectId;
  checkin_placeId : ObjectId;
  checkin_coordinates : float * float;
  checkin_timestamp : Date
}.

(** [rewardHistorySchema]: one ledger entry. *)
Record RewardHistory := {
  rh_userId : ObjectId;
  rh_amount : Z;
  rh_reason : string;
  rh_timestamp : Date
}.

(** The collections.  The two append-only collections are lists in
    insertion order. *)
Record DB := {
  Users : gmap N User;
  Places : gmap N Place;
  Rewards : gmap N Reward;
  Checkins : list Checkin;
  RewardHistories : list RewardHistory
}.

(** ** Responses *)

(** The [message] field.  The two distance messages are template strings
    around [Math.round(distance)]; they keep the rounded number. *)
Inductive Message :=
| Text (s : string)
| TooFar (rounded : float)
    (* `Too far from place. You are ${..}m away. Must be within 20 meters.` *)
| TooClose (rounded : float).
    (* `Too close to place. You are ${..}m away. Must be at least 10 meters away.` *)

(** The [data] field of the success responses. *)
Inductive Data :=
| NoData
| CheckinData (checkinId placeId : ObjectId) (placeName : string)
    (distance : float) (awarded total : Z) (timestamp : Date)
| RewardData (id : ObjectId) (name shortDescription type : string)
    (cost remainingPoints : Z)
| PlaceRedeemData (pointsAwarded totalPoints : Z).

Record Response := {
  status : nat;
  success : bool;
  message : Message;
  data : Data
}.

Definition failure (code : nat) (msg : Message) : Response :=
  {| status := code; success := false; message := msg; data := NoData |}.

Definition server_error : Response := failure 500 (Text "Server error").

(** ** Asynchronous handlers over the database *)

Inductive Outcome (A : Type) :=
| Value (a : A)
| Returned (r : Response)
| Thrown.
Arguments Value {A} a.
Arguments Returned {A} r.
Arguments Thrown {A}.

Definition Async (A : Type) : Type := DB -> DB * Outcome A.

Definition async_ret {A} (a : A) : Async A := fun db => (db, Value a).

Definition async_bind {A B} (m : Async A) (k : A -> Async B) : Async B :=
  fun db =>
    match m db with
    | (db', Value a) => k a db'
    | (db', Returned r) => (db', Returned r)
    | (db', Thrown) => (db', Thrown)
    end.

Notation "x <- m ;; k" := (async_bind m (fun x => k))
  (at level 100, m at next level, right associativity).

(** [return res.status(code).json(..)] *)
Definition respond {A} (r : Response) : Async A := fun db => (db, Returned r).

Definition throw {A} : Async A := fun db => (db, Thrown).

(** [try { .. } catch (error) { return res.status(500).json(..) }] *)
Definition try_catch (h : Async Response) (db : DB) : DB * Response :=
  match h db with
  | (db', Value r) => (db', r)
  | (db', Returned r) => (db', r)
  | (db', Thrown) => (db', server_error)
  end.

(** ** Mongoose operations *)

Definition set_Users (f : gmap N User -> gmap N User) (db : DB) : DB :=
  {| Users := f (Users db); Places := Places db; Rewards := Rewards db;
     Checkins := Checkins db; RewardHistories := RewardHistories db |}.

Definition Place_findById (id : ObjectId) : Async (option Place) :=
  fun db => (db, Value (Places db !! id)).

Definition Reward_findById (id : ObjectId) : Async (option Reward) :=
  fun db => (db, Value (Rewards db !! id)).

Definition User_findById (id : ObjectId) : Async (option User) :=
  fun db => (db, Value (Users db !! id)).

(** [Checkin.findOne(query)]: the first stored document the query
    matches. *)
Definition Checkin_findOne (query : Checkin -> bool) : Async (option Checkin) :=
  fun db => (db, Value (List.find query (Checkins db))).

Definition Checkin_create (c : Checkin) : Async Checkin :=
  fun db =>
    ({| Users := Users db; Places := Places db; Rewards := Rewards db;
        Checkins := Checkins db ++ [c];
        RewardHistories := RewardHistories db |}, Value c).

(** [RewardHistory.create(doc)].  [amount] is a Number and [reason] a
    fixed prefix followed by a stored name, so the [required] validators
    hold; the [maxlength] validator on [reason] is outside the model. *)
Definition RewardHistory_create (e : RewardHistory) : Async unit :=
  fun db =>
    ({| Users := Users db; Places := Places db; Rewards := Rewards db;
        Checkins := Checkins db;
        RewardHistories := RewardHistories db ++ [e] |}, Value tt).

(** *** [user.save()]

    A handler holds the document it loaded and mutates it in memory.
    [save] validates the paths that were modified and sends them to the
    store: a changed [rewardPoints.total] as a [$set] of the new value, the
    elements pushed on [rewards] as a [$push].  Paths that were not
    modified are neither validated nor written. *)

Definition total_modified (loaded modified : User) : bool :=
  negb (rewardPoints_total modified =? rewardPoints_total loaded).

Definition pushed_rewards (loaded modified : User) : list RedeemedReward :=
  drop (length (user_rewards loaded)) (user_rewards modified).

(** [rewardPoints.total: { min: 0 }] *)
Definition total_valid (loaded modified : User) : bool :=
  negb (total_modified loaded modified) || (0 <=? rewardPoints_total modified).

(** [rewards.pointsCost: { min: 0 }]; the string validators of the
    snapshot repeat those of [rewardSchema] and are outside the model. *)
Definition snapshot_valid (r : RedeemedReward) : bool := 0 <=? rr_pointsCost r.

Definition save_changes (loaded modified stored : User) : User :=
  {| rewardPoints_total :=
       if total_modified loaded modified then rewardPoints_total modified
       else rewardPoints_total stored;
     user_rewards := user_rewards stored ++ pushed_rewards loaded modified |}.

Definition User_save (id : ObjectId) (loaded modified : User) : Async unit :=
  fun db =>
    if total_valid loaded modified
       && forallb snapshot_valid (pushed_rewards loaded modified)
    then
      if total_modified loaded modified
         || negb (bool_decide (pushed_rewards loaded modified = []))
      then
        match Users db !! id with
        | Some stored =>
            (set_Users <[id := save_changes loaded modified stored]> db,
             Value tt)
        | None => (db, Thrown)          (* DocumentNotFoundError *)
        end
      else (db, Value tt)               (* nothing to write *)
    else (db, Thrown).                  (* ValidationError *)

(** ** JavaScript built-ins *)

(** [Math.sin], [Math.cos] and [Math.atan2] are implementation-approximated
    in ECMAScript; the embedding is parametric in them. *)
Class JSMath := {
  Math_sin : float -> float;
  Math_cos : float -> float;
  Math_atan2 : float -> float -> float
}.

Definition Math_PI : float := 0x1.921fb54442d18p+1%float.

(** The local calendar of the server process. *)
Class LocalCalendar := {
  setHours_0 : Date -> Date;       (* [d.setHours(0, 0, 0, 0)] *)
  setDate_next : Date -> Date      (* [d.setDate(d.getDate() + 1)] *)
}.

(** [Math.round]: the closest integer, ties towards +infinity, with the
    sign of zero as ECMAScript fixes it.  A finite double is [m * 2^e]
    with [m] a 53-bit integer. *)
Definition float_of_Z (n : Z) : float :=
  let a := PrimFloat.of_uint63 (Uint63.of_Z (Z.abs n)) in
  if n <? 0 then (- a)%float else a.

Definition Math_round (x : float) : float :=
  match Prim2SF x with
  | S754_finite s m e =>
      if 0 <=? e then x
      else
        let v := if s then Z.neg m else Z.pos m in
        let n := (2 * v + 2 ^ (- e)) / 2 ^ (- e + 1) in
        if n =? 0 then (if s then neg_zero else zero) else float_of_Z n
  | _ => x
  end.

(** ** Distance (src/routes/checkins.js, [calculateDistance]) *)

Section Distance.
Context `{JSMath}.
Local Open Scope float_scope.

Definition calculateDistance (lat1 lng1 lat2 lng2 : float) : float :=
  let R := 6371e3 in
  let phi1 := lat1 * Math_PI / 180 in
  let phi2 := lat2 * Math_PI / 180 in
  let dphi := (lat2 - lat1) * Math_PI / 180 in
  let dlambda := (lng2 - lng1) * Math_PI / 180 in
  let a := Math_sin (dphi / 2) * Math_sin (dphi / 2) +
           Math_cos phi1 * Math_cos phi2 *
           Math_sin (dlambda / 2) * Math_sin (dlambda / 2) in
  let c := 2 * Math_atan2 (sqrt a) (sqrt (1 - a)) in
  R * c.
End Distance.

(** ** Check-in ([POST /api/checkins]) *)

(** What the handler takes from its surroundings: the body fields
    [placeId] and [coordinates] (already shape-checked by
    [validateCheckin]), the authenticated [req.user.id], the [_id] given to
    the created Checkin, and the values of its three [new Date()]. *)
Record CheckinRequest := {
  req_user_id : ObjectId;
  req_placeId : ObjectId;
  req_coordinates : float * float;      (* [lng, lat] *)
  checkin_new_id : ObjectId;
  checkin_now_today : Date;             (* [const today = new Date()] *)
  checkin_now_created : Date;           (* [timestamp] of the Checkin *)
  checkin_now_logged : Date             (* [timestamp] of the ledger entry *)
}.

Section Checkin.
Context `{LocalCalendar}.

Definition same_day_query (userId placeId : ObjectId) (today tomorrow : Date)
    (c : Checkin) : bool :=
  (checkin_userId c =? userId)%N && (checkin_placeId c =? placeId)%N
  && (today <=? checkin_timestamp c) && (checkin_timestamp c <? tomorrow).

(** The handler from the distance test on (lines 27-99), as a function
    of the [distance] bound at line 21. *)
Definition checkin_at_distance (req : CheckinRequest) (place : Place)
    (distance : float) : Async Response :=
  let lng := fst (req_coordinates req) in
  let lat := snd (req_coordinates req) in
  if (20 <? distance)%float then
    respond (failure 400 (TooFar (Math_round distance)))
  else if (distance <? 10)%float then
    respond (failure 400 (TooClose (Math_round distance)))
  else
    let today := setHours_0 (checkin_now_today req) in
    let tomorrow := setDate_next today in
    existingCheckin <-
      Checkin_findOne
        (same_day_query (req_user_id req) (req_placeId req) today tomorrow) ;;
    match existingCheckin with
    | Some _ =>
        respond (failure 409 (Text "Already checked in at this place today"))
    | None =>
        checkin <-
          Checkin_create
            {| checkin_id := checkin_new_id req;
               checkin_userId := req_user_id req;
               checkin_placeId := req_placeId req;
               checkin_coordinates := (lng, lat);
               checkin_timestamp := checkin_now_created req |} ;;
        user <- User_findById (req_user_id req) ;;
        match user with
        | None => throw                (* TypeError on [user.rewardPoints] *)
        | Some user =>
            let pointsAwarded := 10 in
            let user' :=
              {| rewardPoints_total := rewardPoints_total user + pointsAwarded;
                 user_rewards := user_rewards user |} in
            _ <- User_save (req_user_id req) user user' ;;
            _ <- RewardHistory_create
                   {| rh_userId := req_user_id req;
                      rh_amount := pointsAwarded;
                      rh_reason := "Check-in at " +:+ place_name place;
                      rh_timestamp := checkin_now_logged req |} ;;
            async_ret
              {| status := 201; success := true;
                 message := Text "Check-in successful! Points awarded.";
                 data := CheckinData (checkin_id checkin) (req_placeId req)
                           (place_name place) (Math_round distance)
                           pointsAwarded (rewardPoints_total user')
                           (checkin_timestamp checkin) |}
        end
    end.

Context `{JSMath}.

Definition checkin_post (req : CheckinRequest) : DB -> DB * Response :=
  try_catch (
    place <- Place_findById (req_placeId req) ;;
    match place with
    | None => respond (failure 404 (Text "Place not found"))
    | Some place =>
        let lng := fst (req_coordinates req) in
        let lat := snd (req_coordinates req) in
        let distance :=
          calculateDistance lat lng
            (snd (location_coordinates place))
            (fst (location_coordinates place)) in
        checkin_at_distance req place distance
    end).
End Checkin.

(** ** Reward redemption ([POST /api/rewards/:id/redeem]) *)

Record RedeemRequest := {
  redeem_user_id : ObjectId;            (* [req.user.id] *)
  redeem_id : ObjectId;                 (* [req.params.id] *)
  redeem_now_expiry : Date;             (* [new Date() > reward.validUntil] *)
  redeem_now_redeemed : Date;           (* [redeemedAt] *)
  redeem_now_logged : Date              (* [timestamp] of the ledger entry *)
}.

(** [reward.validUntil && new Date() > reward.validUntil] *)
Definition reward_expired (now : Date) (reward : Reward) : bool :=
  match validUntil reward with
  | Some until => until <? now
  | None => false
  end.

(** The template string of the insufficient-balance response. *)
Definition insufficient_points (cost total : Z) : string :=
  "Insufficient points. You need " +:+ pretty cost +:+
  " points but have " +:+ pretty total.

Definition reward_redeem (req : RedeemRequest) : DB -> DB * Response :=
  try_catch (
    reward <- Reward_findById (redeem_id req) ;;
    match reward with
    | None => respond (failure 404 (Text "Reward not found"))
    | Some reward =>
        if negb (isActive reward) then
          respond (failure 400 (Text "Reward is not available"))
        else if reward_expired (redeem_now_expiry req) reward then
          respond (failure 400 (Text "Reward has expired"))
        else
          user <- User_findById (redeem_user_id req) ;;
          match user with
          | None => respond (failure 404 (Text "User not found"))
          | Some user =>
              if rewardPoints_total user <? pointsCost reward then
                respond (failure 400
                  (Text (insufficient_points (pointsCost reward)
                           (rewardPoints_total user))))
              else
                let user' :=
                  {| rewardPoints_total :=
                       rewardPoints_total user - pointsCost reward;
                     user_rewards :=
                       user_rewards user ++
                       [ {| rr_name := reward_name reward;
                            rr_shortDescription := reward_shortDescription reward;
                            rr_pointsCost := pointsCost reward;
                            rr_redeemedAt := redeem_now_redeemed req;
                            rr_used := false |} ] |} in
                _ <- User_save (redeem_user_id req) user user' ;;
                _ <- RewardHistory_create
                       {| rh_userId := redeem_user_id req;
                          rh_amount := - pointsCost reward;
                          rh_reason := "Redeemed reward: " +:+ reward_name reward;
                          rh_timestamp := redeem_now_logged req |} ;;
                async_ret
                  {| status := 200; success := true;
                     message := Text "Reward redeemed successfully!";
                     data := RewardData (redeem_id req) (reward_name reward)
                               (reward_shortDescription reward)
                               (reward_type reward) (pointsCost reward)
                               (rewardPoints_total user') |}
          end
    end).

(** ** Place redemption ([POST /api/places/:id/redeem]) *)

Record PlaceRedeemRequest := {
  predeem_user_id : ObjectId;           (* [req.user.id] *)
  predeem_id : ObjectId;                (* [req.params.id] *)
  predeem_now_logged : Date             (* [timestamp] of the ledger entry *)
}.

(** [place.redemption.pointsCost || 0]: a missing cost and the falsy
    number 0 both give 0. *)
Definition pointsCost_or_0 (cost : option Z) : Z :=
  match cost with
  | Some c => if c =? 0 then 0 else c
  | None => 0
  end.

Definition place_redeem (req : PlaceRedeemRequest) : DB -> DB * Response :=
  try_catch (
    place <- Place_findById (predeem_id req) ;;
    match place with
    | None => respond (failure 404 (Text "Place not found"))
    | Some place =>
        match redemption place with
        | None =>
            respond (failure 400 (Text "Place not eligible for redemption"))
        | Some red =>
            if negb (eligible red) then
              respond (failure 400 (Text "Place not eligible for redemption"))
            else
              let pointsAwarded := pointsCost_or_0 (redemption_pointsCost red) in
              user <- User_findById (predeem_user_id req) ;;
              match user with
              | None => respond (failure 404 (Text "User not found"))
              | Some user =>
                  let user' :=
                    {| rewardPoints_total :=
                         rewardPoints_total user + pointsAwarded;
                       user_rewards := user_rewards user |} in
                  _ <- User_save (predeem_user_id req) user user' ;;
                  _ <- RewardHistory_create
                         {| rh_userId := predeem_user_id req;
                            rh_amount := pointsAwarded;
                            rh_reason := "Redeemed at " +:+ place_name place;
                            rh_timestamp := predeem_now_logged req |} ;;
                  async_ret
                    {| status := 200; success := true;
                       message := Text "Redemption successful! Points awarded.";
                       data := PlaceRedeemData pointsAwarded
                                 (rewardPoints_total user') |}
              end
        end
    end).

(** ** Sequences of requests *)

Inductive Operation :=
| CheckinOp (req : CheckinRequest)
| RewardRedeemOp (req : RedeemRequest)
| PlaceRedeemOp (req : PlaceRedeemRequest).

Section Server.
Context `{LocalCalendar} `{JSMath}.

Definition run_op (op : Operation) : DB -> DB * Response :=
  match op with
  | CheckinOp req => checkin_post req
  | RewardRedeemOp req => reward_redeem req
  | PlaceRedeemOp req => place_redeem req
  end.

(** The server answering the requests one after the other: the final
    database and the responses in order. *)
Fixpoint run_ops (ops : list Operation) (db : DB) : DB * list Response :=
  match ops with
  | [] => (db, [])
  | op :: ops' =>
      let (db1, r) := run_op op db in
      let (db2, rs) := run_ops ops' db1 in
      (db2, r :: rs)
  end.
End Server.

(** ** Observations on the database *)

Definition balance (id : ObjectId) (db : DB) : option Z :=
  rewardPoints_total <$> Users db !! id.

Definition entries_of (id : ObjectId) (db : DB) : list RewardHistory :=
  List.filter (fun e => (rh_userId e =? id)%N) (RewardHistories db).

Definition sum_amounts (l : list RewardHistory) : Z :=
  fold_right (fun e acc => rh_amount e + acc) 0 l.

(** The ledger total of a user, as the [$sum: '$amount'] aggregation of
    [GET /api/users/:id/rewards] computes it. *)
Definition ledger_sum (id : ObjectId) (db : DB) : Z :=
  sum_amounts (entries_of id db).

(** ** Requests in flight

    Node runs a handler without interruption from one [await] to the next
    and may switch to another request at each [await].  A reward redemption
    has four of them; [redeem_step] performs the awaited database operation
    and the synchronous code that follows it. *)

Inductive RedeemTask :=
| AtRewardFind                          (* [await Reward.findById(..)] *)
| AtUserFind (reward : Reward)          (* [await User.findById(..)] *)
| AtSave (reward : Reward) (user user' : User)      (* [await user.save()] *)
| AtHistoryCreate (reward : Reward) (user' : User)  (* [await RewardHistory.create(..)] *)
| Finished (r : Response).

Definition redeem_step (req : RedeemRequest) (t : RedeemTask) (db : DB)
    : DB * RedeemTask :=
  match t with
  | AtRewardFind =>
      match Rewards db !! redeem_id req with
      | None => (db, Finished (failure 404 (Text "Reward not found")))
      | Some reward =>
          if negb (isActive reward) then
            (db, Finished (failure 400 (Text "Reward is not available")))
          else if reward_expired (redeem_now_expiry req) reward then
            (db, Finished (failure 400 (Text "Reward has expired")))
          else (db, AtUserFind reward)
      end
  | AtUserFind reward =>
      match Users db !! redeem_user_id req with
      | None => (db, Finished (failure 404 (Text "User not found")))
      | Some user =>
          if rewardPoints_total user <? pointsCost reward then
            (db, Finished (failure 400
                   (Text (insufficient_points (pointsCost reward)
                            (rewardPoints_total user)))))
          else
            (db, AtSave reward user
                   {| rewardPoints_total :=
                        rewardPoints_total user - pointsCost reward;
                      user_rewards :=
                        user_rewards user ++
                        [ {| rr_name := reward_name reward;
                             rr_shortDescription := reward_shortDescription reward;
                             rr_pointsCost := pointsCost reward;
                             rr_redeemedAt := redeem_now_redeemed req;
                             rr_used := false |} ] |})
      end
  | AtSave reward user user' =>
      match User_save (redeem_user_id req) user user' db with
      | (db', Value _) => (db', AtHistoryCreate reward user')
      | (db', _) => (db', Finished server_error)
      end
  | AtHistoryCreate reward user' =>
      match RewardHistory_create
              {| rh_userId := redeem_user_id req;
                 rh_amount := - pointsCost reward;
                 rh_reason := "Redeemed reward: " +:+ reward_name reward;
                 rh_timestamp := redeem_now_logged req |} db with
      | (db', _) =>
          (db', Finished
                  {| status := 200; success := true;
                     message := Text "Reward redeemed successfully!";
                     data := RewardData (redeem_id req) (reward_name reward)
                               (reward_shortDescription reward)
                               (reward_type reward) (pointsCost reward)
                               (rewardPoints_total user') |})
      end
  | Finished r => (db, Finished r)
  end.


(** The requests being served, each with the point it has reached. *)
Definition Pool := list (RedeemRequest * RedeemTask).

(** The event loop resumes request number [i]. *)
Definition pool_step (i : nat) (st : DB * Pool) : DB * Pool :=
  let (db, pool) := st in
  match pool !! i with
  | Some (req, t) =>
      let (db', t') := redeem_step req t db in
      (db', <[i := (req, t')]> pool)
  | None => st
  end.

Definition run_schedule (schedule : list nat) (st : DB * Pool) : DB * Pool :=
  fold_left (fun st i => pool_step i st) schedule st.

(** The response of request [i], once it has finished. *)
Definition response_of (i : nat) (st : DB * Pool) : option Response :=
  match snd st !! i with
  | Some (_, Finished r) => Some r
  | _ => None
  end.

(** ** Schema constraints on stored documents *)

(** [rewardPoints.total: { min: 0 }] *)
Definition user_valid (u : User) : Prop := 0 <= rewardPoints_total u.


Definition users_valid (db : DB) : Prop :=
  forall id u, Users db !! id = Some u -> user_valid u.

(** ** Instances used to evaluate the handlers *)

(** A server whose local time is UTC. *)
Definition utc : LocalCalendar :=
  {| setHours_0 := fun t => t - t mod 86400000;
     setDate_next := fun t => t + 86400000 |}.

(** Power-series approximations of the trigonometric built-ins. *)
Module Series.
Local Open Scope float_scope.

(** [acc + sum of the next n terms], each term being the previous one
    times [- x2 / ((k + 1) (k + 2))]. *)
Fixpoint alternating (n : nat) (k term x2 acc : float) : float :=
  match n with
  | O => acc
  | S n' =>
      let term' := - term * x2 / ((k + 1) * (k + 2)) in
      alternating n' (k + 2) term' x2 (acc + term')
  end.

Definition sin (x : float) : float := alternating 20 1 x (x * x) x.
Definition cos (x : float) : float := alternating 20 0 1 (x * x) 1.

Fixpoint gregory (n : nat) (k pow z2 acc : float) : float :=
  match n with
  | O => acc
  | S n' =>
      let pow' := - pow * z2 in
      gregory n' (k + 2) pow' z2 (acc + pow' / (k + 2))
  end.

Definition halve_angle (z : float) : float := z / (1 + sqrt (1 + z * z)).

(** For [|z| <= 1]. *)
Definition atan (z : float) : float :=
  let w := halve_angle (halve_angle (halve_angle z)) in
  8 * gregory 30 1 w (w * w) w.

Definition atan2 (y x : float) : float :=
  if (x =? 0) && (y =? 0) then 0
  else if abs y <=? abs x then
    let r := atan (y / x) in
    if 0 <? x then r else if y <? 0 then r - Math_PI else r + Math_PI
  else
    let r := atan (x / y) in
    if 0 <? y then Math_PI / 2 - r else - Math_PI / 2 - r.
End Series.

Definition series_math : JSMath :=
  {| Math_sin := Series.sin; Math_cos := Series.cos;
     Math_atan2 := Series.atan2 |}.

(** ** Vocabulary of the statements *)

(** The document in memory after [user.rewardPoints.total += n]. *)
Definition credited (n : Z) (u : User) : User :=
  {| rewardPoints_total := rewardPoints_total u + n;
     user_rewards := user_rewards u |}.

Section CheckinVocabulary.
Context `{LocalCalendar}.

(** The user of [req] has a stored check-in at the place of [req] whose
    timestamp lies in the local day of the request. *)
Definition already_checked_in (req : CheckinRequest) (db : DB) : Prop :=
  exists c, In c (Checkins db) /\
    checkin_userId c = req_user_id req /\
    checkin_placeId c = req_placeId req /\
    setHours_0 (checkin_now_today req) <= checkin_timestamp c
      < setDate_next (setHours_0 (checkin_now_today req)).
End CheckinVocabulary.

(** The Checkin record and the ledger entry a check-in creates. *)
Definition checkin_record (req : CheckinRequest) : Checkin :=
  {| checkin_id := checkin_new_id req;
     checkin_userId := req_user_id req;
     checkin_placeId := req_placeId req;
     checkin_coordinates := (fst (req_coordinates req), snd (req_coordinates req));
     checkin_timestamp := checkin_now_created req |}.

Definition checkin_entry (req : CheckinRequest) (place : Place) : RewardHistory :=
  {| rh_userId := req_user_id req;
     rh_amount := 10;
     rh_reason := "Check-in at " +:+ place_name place;
     rh_timestamp := checkin_now_logged req |}.

(** The database with the Checkin record of [req] stored and nothing
    else changed. *)
Definition with_checkin (req : CheckinRequest) (db : DB) : DB :=
  {| Users := Users db; Places := Places db; Rewards := Rewards db;
     Checkins := Checkins db ++ [checkin_record req];
     RewardHistories := RewardHistories db |}.

(** The database after an accepted check-in of user document [u]. *)
Definition after_checkin (req : CheckinRequest) (place : Place) (u : User)
    (db : DB) : DB :=
  {| Users := <[req_user_id req := credited 10 u]> (Users db);
     Places := Places db; Rewards := Rewards db;
     Checkins := Checkins db ++ [checkin_record req];
     RewardHistories := RewardHistories db ++ [checkin_entry req place] |}.

Definition checkin_created (req : CheckinRequest) (place : Place) (u : User)
    (distance : float) : Response :=
  {| status := 201; success := true;
     message := Text "Check-in successful! Points awarded.";
     data := CheckinData (checkin_new_id req) (req_placeId req)
               (place_name place) (Math_round distance) 10
               (rewardPoints_total u + 10) (checkin_now_created req) |}.

(** Neither of the two distance guards of the check-in handler fires. *)
Definition passes_distance_guards (d : float) : bool :=
  negb (20 <? d)%float && negb (d <? 10)%float.

Section RequestDistance.
Context `{JSMath}.

(** The [distance] the check-in handler computes for a request at a
    stored place (lines 20-25). *)
Definition request_distance (req : CheckinRequest) (place : Place) : float :=
  calculateDistance
    (snd (req_coordinates req)) (fst (req_coordinates req))
    (snd (location_coordinates place)) (fst (location_coordinates place)).
End RequestDistance.

(** The snapshot pushed on [user.rewards], the ledger entry, the document
    in memory and the database after a successful reward redemption. *)
Definition redeem_snapshot (req : RedeemRequest) (reward : Reward) : RedeemedReward :=
  {| rr_name := reward_name reward;
     rr_shortDescription := reward_shortDescription reward;
     rr_pointsCost := pointsCost reward;
     rr_redeemedAt := redeem_now_redeemed req;
     rr_used := false |}.

Definition redeem_entry (req : RedeemRequest) (reward : Reward) : RewardHistory :=
  {| rh_userId := redeem_user_id req;
     rh_amount := - pointsCost reward;
     rh_reason := "Redeemed reward: " +:+ reward_name reward;
     rh_timestamp := redeem_now_logged req |}.

Definition debited (req : RedeemRequest) (reward : Reward) (u : User) : User :=
  {| rewardPoints_total := rewardPoints_total u - pointsCost reward;
     user_rewards := user_rewards u ++ [redeem_snapshot req reward] |}.

Definition after_redeem (req : RedeemRequest) (reward : Reward) (u : User)
    (db : DB) : DB :=
  {| Users := <[redeem_user_id req := debited req reward u]> (Users db);
     Places := Places db; Rewards := Rewards db; Checkins := Checkins db;
     RewardHistories := RewardHistories db ++ [redeem_entry req reward] |}.

Definition redeemed (req : RedeemRequest) (reward : Reward) (u : User) : Response :=
  {| status := 200; success := true;
     message := Text "Reward redeemed successfully!";
     data := RewardData (redeem_id req) (reward_name reward)
               (reward_shortDescription reward) (reward_type reward)
               (pointsCost reward)
               (rewardPoints_total u - pointsCost reward) |}.

(** Ledger entry [e] is the one the check-in [req] logs: +10 points for
    the requesting user, with the name of the place in the reason. *)
Definition entry_matches (db : DB) (req : CheckinRequest) (e : RewardHistory)
    : Prop :=
  exists place,
    Places db !! req_placeId req = Some place /\ e = checkin_entry req place.

(** The ledger entry and the database after a successful place
    redemption that awards [n] points. *)
Definition place_entry (req : PlaceRedeemRequest) (place : Place) (n : Z)
    : RewardHistory :=
  {| rh_userId := predeem_user_id req;
     rh_amount := n;
     rh_reason := "Redeemed at " +:+ place_name place;
     rh_timestamp := predeem_now_logged req |}.

Definition after_place_redeem (req : PlaceRedeemRequest) (place : Place)
    (n : Z) (u : User) (db : DB) : DB :=
  {| Users := if n =? 0 then Users db
              else <[predeem_user_id req := credited n u]> (Users db);
     Places := Places db; Rewards := Rewards db; Checkins := Checkins db;
     RewardHistories := RewardHistories db ++ [place_entry req place n] |}.

Definition place_redeemed (n : Z) (u : User) : Response :=
  {| status := 200; success := true;
     message := Text "Redemption successful! Points awarded.";
     data := PlaceRedeemData n (rewardPoints_total u + n) |}.

(** The points a place awards: [redemption.pointsCost || 0] of an eligible
    place. *)
Definition place_award (place : Place) : option Z :=
  match redemption place with
  | Some red =>
      if eligible red then Some (pointsCost_or_0 (redemption_pointsCost red))
      else None
  | None => None
  end.

(** What one request may do to the balances and the ledger: nothing, or
    one signed amount applied to one user together with one ledger entry
    for that user carrying the same amount. *)
Inductive ledger_step (db db' : DB) : Prop :=
| ledger_untouched :
    Users db' = Users db ->
    RewardHistories db' = RewardHistories db ->
    ledger_step db db'
| ledger_applied (id : ObjectId) (u u' : User) (e : RewardHistory) :
    Users db !! id = Some u ->
    Users db' !! id = Some u' ->
    (forall id', id' <> id -> Users db' !! id' = Users db !! id') ->
    RewardHistories db' = RewardHistories db ++ [e] ->
    rh_userId e = id ->
    rewardPoints_total u' = rewardPoints_total u + rh_amount e ->
    (user_valid u -> user_valid u') ->
    ledger_step db db'.

(** ** Sample documents for evaluating the handlers *)

Definition sample_place : Place :=
  {| place_name := "Fountain";
     location_coordinates := (2.2945, 48.8584)%float;
     redemption := Some {| eligible := true; redemption_pointsCost := Some 25 |} |}.

(** An eligible place whose stored redemption has no [pointsCost]. *)
Definition sample_free_place : Place :=
  {| place_name := "Old bridge";
     location_coordinates := (2.2950, 48.8590)%float;
     redemption := Some {| eligible := true; redemption_pointsCost := None |} |}.

Definition sample_reward : Reward :=
  {| reward_name := "Coffee"; reward_shortDescription := "One free coffee";
     pointsCost := 30; reward_type := "voucher"; isActive := true;
     validUntil := Some 1700000000000 |}.

(** User 7 holds 50 points, user 8 is newly registered, user 9 holds 100
    points. *)
Definition sample_db : DB :=
  {| Users := {[ 7%N := {| rewardPoints_total := 50; user_rewards := [] |};
                 8%N := {| rewardPoints_total := 0; user_rewards := [] |};
                 9%N := {| rewardPoints_total := 100; user_rewards := [] |} ]};
     Places := {[ 1%N := sample_place; 2%N := sample_free_place ]};
     Rewards := {[ 3%N := sample_reward ]};
     Checkins := [];
     RewardHistories := [] |}.

(** A check-in of user [uid] at place 1 from about 14.5 m north of it. *)
Definition sample_checkin (uid : ObjectId) (now : Date) : CheckinRequest :=
  {| req_user_id := uid; req_placeId := 1%N;
     req_coordinates := (2.2945, 48.85853)%float;
     checkin_new_id := Z.to_N now;
     checkin_now_today := now;
     checkin_now_created := now + 5;
     checkin_now_logged := now + 9 |}.

(** The sample database after user 7 has checked in at place 1. *)
Definition sample_db_checked_in : DB :=
  fst (@checkin_post utc series_math (sample_checkin 7 1700000000000) sample_db).

(** A second attempt one second later, from about 1.1 km away. *)
Definition sample_checkin_far : CheckinRequest :=
  {| req_user_id := 7%N; req_placeId := 1%N;
     req_coordinates := (2.2945, 48.8684)%float;
     checkin_new_id := 101%N;
     checkin_now_today := 1700000001000;
     checkin_now_created := 1700000001005;
     checkin_now_logged := 1700000001009 |}.

(** A redemption of reward 3 by user [uid] at time [now]. *)
Definition sample_redeem (uid : ObjectId) (now : Date) : RedeemRequest :=
  {| redeem_user_id := uid; redeem_id := 3%N;
     redeem_now_expiry := now;
     redeem_now_redeemed := now + 1;
     redeem_now_logged := now + 4 |}.

(** A redemption at place 1 by user [uid]. *)
Definition sample_place_redeem (uid : ObjectId) (now : Date) : PlaceRedeemRequest :=
  {| predeem_user_id := uid; predeem_id := 1%N; predeem_now_logged := now |}.

(** User 8 checks in (+10), redeems at the place (+25) and buys the
    reward (-30). *)
Definition sample_ops : list Operation :=
  [ CheckinOp (sample_checkin 8 1699999997000);
    PlaceRedeemOp (sample_place_redeem 8 1699999998000);
    RewardRedeemOp (sample_redeem 8 1699999999000) ].

(** Two check-ins of user 8 at place 1, one day apart. *)
Definition sample_two_checkins : list CheckinRequest :=
  [ sample_checkin 8 1699999997000; sample_checkin 8 1700086397000 ].



(** Two redemptions of reward 3 by user 7, received 10 ms apart. *)
Definition sample_pool : Pool :=
  [ (sample_redeem 7 1699999999000, AtRewardFind);
    (sample_redeem 7 1699999999010, AtRewardFind) ].

(** The user a request acts for. *)
Definition op_user (op : Operation) : ObjectId :=
  match op with
  | CheckinOp req => req_user_id req
  | RewardRedeemOp req => redeem_user_id req
  | PlaceRedeemOp req => predeem_user_id req
  end.

(** [db'] extends [db]: the catalogues and the set of users are the same,
    the two logs and every user's redemption history have only grown at
    the end. *)
Definition extends (db db' : DB) : Prop :=
  Places db' = Places db /\
  Rewards db' = Rewards db /\
  (forall id, is_Some (Users db' !! id) <-> is_Some (Users db !! id)) /\
  (exists cs, Checkins db' = Checkins db ++ cs) /\
  (exists es, RewardHistories db' = RewardHistories db ++ es) /\
  (forall id u u', Users db !! id = Some u -> Users db' !! id = Some u' ->
     exists rs, user_rewards u' = user_rewards u ++ rs).

(** What the check-in handler relies on about local days: an instant
    lies between the midnight that starts its day and the next one. *)
Class CalendarLaws `{LocalCalendar} : Prop := {
  day_contains : forall t,
    setHours_0 t <= t < setDate_next (setHours_0 t)
}.

Section Days.
Context `{LocalCalendar}.

(** Two stored check-ins of one user at one place on one local day. *)
Definition same_visit (c1 c2 : Checkin) : Prop :=
  checkin_userId c1 = checkin_userId c2 /\
  checkin_placeId c1 = checkin_placeId c2 /\
  setHours_0 (checkin_timestamp c1) = setHours_0 (checkin_timestamp c2).

(** No user has two check-ins at the same place on the same local day. *)
Definition one_per_day (db : DB) : Prop :=
  forall i j c1 c2,
    Checkins db !! i = Some c1 -> Checkins db !! j = Some c2 ->
    same_visit c1 c2 -> i = j.

(** The request creates its Checkin on the local day on which it
    started. *)
Definition within_one_day (op : Operation) : Prop :=
  match op with
  | CheckinOp req =>
      setHours_0 (checkin_now_created req) = setHours_0 (checkin_now_today req)
  | _ => True
  end.
End Days.

(** The ledger entries written by reward redemptions: their reason is
    the template [`Redeemed reward: ${reward.name}`]. *)
Definition is_redemption_entry (e : RewardHistory) : bool :=
  String.prefix "Redeemed reward: " (rh_reason e).

(** The points a user has spent according to the ledger, and according
    to the snapshots stored on the user document. *)
Definition ledger_spent (id : ObjectId) (db : DB) : Z :=
  - sum_amounts (List.filter is_redemption_entry (entries_of id db)).

Definition snapshots_cost (u : User) : Z :=
  fold_right (fun r acc => rr_pointsCost r + acc) 0 (user_rewards u).

(** The redemption history of user [id] agrees with the ledger: as many
    snapshots as redemption entries, for the same number of points. *)
Definition redemptions_reconciled (id : ObjectId) (db : DB) : Prop :=
  forall u, Users db !! id = Some u ->
    snapshots_cost u = ledger_spent id db /\
    length (user_rewards u) =
      length (List.filter is_redemption_entry (entries_of id db)).

(** ** Coordinates and numbers in the middleware
    (src/middleware/validation.js, src/middleware/sanitization.js,
    models/Place.js)

    The functions below receive parsed JSON; the embedding covers
    arguments that are Numbers. *)

(** [parseFloat(x)] of a Number: the Number is printed and read back,
    which gives the Number itself, except that [-0] is printed ["0"]. *)
Definition parseFloat (x : float) : float :=
  if (x =? 0)%float then 0%float else x.

(** [x || 0] on a Number: NaN and the two zeros are falsy. *)
Definition or_0 (x : float) : float :=
  if is_nan x || (x =? 0)%float then 0%float else x.

(** [validateCoordinates(lat, lng)] *)
Definition validateCoordinates (lat lng : float) : bool :=
  let latNum := parseFloat lat in
  let lngNum := parseFloat lng in
  (negb (is_nan latNum) && negb (is_nan lngNum) &&
   (-90 <=? latNum) && (latNum <=? 90) &&
   (-180 <=? lngNum) && (lngNum <=? 180))%float.

(** The [validate.validator] of [placeSchema.location.coordinates]. *)
Definition coordinates_validator (coords : list float) : bool :=
  match coords with
  | [c0; c1] =>
      ((-180 <=? c0) && (c0 <=? 180) && (-90 <=? c1) && (c1 <=? 90))%float
  | _ => false
  end.

(** [sanitizeCoordinates(coords)] *)
Definition sanitizeCoordinates (coords : list float) : list float :=
  match coords with
  | [lng; lat] => [or_0 (parseFloat lng); or_0 (parseFloat lat)]
  | _ => coords
  end.

(** [sanitizeNumber(input, min, max)]; [None] is [null]. *)
Definition sanitizeNumber (input : float) (min max : option float) : option float :=
  let num := parseFloat input in
  if is_nan num then None
  else
    match min with
    | Some lo =>
        if (num <? lo)%float then Some lo
        else match max with
             | Some hi => if (hi <? num)%float then Some hi else Some num
             | None => Some num
             end
    | None =>
        match max with
        | Some hi => if (hi <? num)%float then Some hi else Some num
        | None => Some num
        end
    end.

(** ** The routers around the handlers

    The second part of the embedding puts the middleware
    (src/middleware/auth.js, tokenBlacklist.js, validation.js) in front
    of the handlers and adds the routes of places.js, rewards.js,
    users.js and auth.js that read or write what the ledger flows use.
    Requests are served one after the other. *)

(** *** Identifiers in URLs *)

(** The character class [[0-9a-fA-F]]. *)
Definition is_hex (c : Ascii.ascii) : bool :=
  let n := Ascii.N_of_ascii c in
  ((48 <=? n) && (n <=? 57) || (97 <=? n) && (n <=? 102) ||
   (65 <=? n) && (n <=? 70))%N.

Fixpoint all_hex (s : string) : bool :=
  match s with
  | EmptyString => true
  | String c s' => is_hex c && all_hex s'
  end.

(** [/^[0-9a-fA-F]{24}$/.test(id)] *)
Definition objectIdRegex_test (id : string) : bool :=
  (String.length id =? 24)%nat && all_hex id.

(** [id.replace(/[^a-fA-F0-9]/g, '')] *)
Fixpoint sanitizeObjectId (id : string) : string :=
  match id with
  | EmptyString => EmptyString
  | String c s' =>
      if is_hex c then String c (sanitizeObjectId s') else sanitizeObjectId s'
  end.

Definition hex_digit (c : Ascii.ascii) : N :=
  let n := Ascii.N_of_ascii c in
  (if n <=? 57 then n - 48 else if n <=? 70 then n - 55 else n - 87)%N.

Fixpoint hex_value (acc : N) (s : string) : N :=
  match s with
  | EmptyString => acc
  | String c s' => hex_value (16 * acc + hex_digit c)%N s'
  end.

(** The [ObjectId] a 24-digit hexadecimal string is cast to: its twelve
    bytes, read as a number. *)
Definition ObjectId_of_hex (id : string) : ObjectId := hex_value 0 id.

(** Mongoose's cast of a query string to an [ObjectId]; a string it
    cannot cast raises a [CastError].  (Strings of twelve characters,
    which some versions cast as well, are outside the model.) *)
Definition castObjectId (id : string) : option ObjectId :=
  if objectIdRegex_test id then Some (ObjectId_of_hex id) else None.

(** *** Middleware *)

(** What a middleware does with a request: hand it on, with what it
    attached to [req], or answer it. *)
Inductive Checked (A : Type) :=
| Next (a : A)                          (* [next()] *)
| Refused (code : nat) (msg : string).
    (* [res.status(code).json({ success: false, message: msg })] *)
Arguments Next {A} a.
Arguments Refused {A} code msg.

(** [validateObjectId] *)
Definition validateObjectId (id : string) : Checked unit :=
  if objectIdRegex_test id then Next tt else Refused 400 "Invalid ID format".

(** The fields of [userSchema] beside the ledger ones, by user [_id],
    and the [Set] of tokenBlacklist.js. *)
Record Site := {
  site_db : DB;
  roles : gmap N string;                (* [role]; absent when not set *)
  bookmarks : gmap N (list ObjectId);   (* [bookmarks] *)
  blacklistedTokens : gset string
}.

Definition set_db (db : DB) (s : Site) : Site :=
  {| site_db := db; roles := roles s; bookmarks := bookmarks s;
     blacklistedTokens := blacklistedTokens s |}.

(** [req.user] *)
Record ReqUser := {
  user_id : ObjectId;
  user_role : string
}.

(** [jwt.verify(token, secret)] followed by the cast of [decoded.id] in
    [User.findById(decoded.id)]: the user id the token carries, or the
    error thrown.  Signatures and expiry are the jsonwebtoken library's;
    the embedding is parametric in them. *)
Inductive Verified :=
| Decoded (id : ObjectId)
| JsonWebTokenError
| TokenExpiredError
| OtherError.

Class JWT := {
  jwt_verify : string -> Verified
}.

(** [s.slice(n)] for [n] within the string. *)
Fixpoint slice (n : nat) (s : string) : string :=
  match n, s with
  | O, _ => s
  | S n', String _ s' => slice n' s'
  | S _, EmptyString => EmptyString
  end.

(** [authHeader.startsWith('Bearer ') ? authHeader.slice(7) : null] on
    [req.headers.authorization || ''] *)
Definition bearer (authorization : option string) : option string :=
  let authHeader :=
    match authorization with
    | Some h => h
    | None => EmptyString
    end in
  if String.prefix "Bearer " authHeader then Some (slice 7 authHeader)
  else None.

(** tokenBlacklist.js *)
Definition blacklistToken (token : string) (s : Site) : Site :=
  if (0 <? String.length token)%nat then
    {| site_db := site_db s; roles := roles s; bookmarks := bookmarks s;
       blacklistedTokens := {[ token ]} ∪ blacklistedTokens s |}
  else s.

Definition isTokenBlacklisted (token : string) (s : Site) : bool :=
  bool_decide (token ∈ blacklistedTokens s).

(** [user.role || 'user'] *)
Definition role_or_user (role : option string) : string :=
  match role with
  | None => "user"
  | Some EmptyString => "user"
  | Some r => r
  end.

Section Middleware.
Context `{JWT}.

(** [auth].  [!token] holds of [null] and of the empty string. *)
Definition auth (authorization : option string) (s : Site) : Checked ReqUser :=
  match bearer authorization with
  | Some (String c t) =>
      let token := String c t in
      if isTokenBlacklisted token s then Refused 401 "Token invalidated."
      else
        match jwt_verify token with
        | Decoded id =>
            match Users (site_db s) !! id with
            | None => Refused 401 "Invalid token. User not found."
            | Some _ =>
                Next {| user_id := id;
                        user_role := role_or_user (roles s !! id) |}
            end
        | JsonWebTokenError => Refused 401 "Invalid token."
        | TokenExpiredError => Refused 401 "Token expired."
        | OtherError => Refused 500 "Authentication error."
        end
  | _ => Refused 401 "Access denied. No token provided."
  end.

End Middleware.

(** [adminOnly]; it runs behind [auth], so [req.user] is set. *)
Definition adminOnly (user : ReqUser) : Checked unit :=
  if bool_decide (user_role user = "admin") then Next tt
  else Refused 403 "Access denied. Admin privileges required.".


(** *** Answers of the routes below *)

Inductive Payload :=
| NoPayload
| BookmarkIds (ids : list ObjectId)     (* [{ bookmarks }] *)
| PlaceList (places : list Place)
| PlaceDoc (place : Place)
| RewardDoc (reward : Reward)
| UserRole (id : ObjectId) (role : string)
    (* a user document, of which the embedding keeps the role *)
| Points (points : Z)
| IsAdmin (isAdmin : bool)
| Leaderboard (top : list (ObjectId * Z))
| Statistics (totalPoints totalEarned : Z) (totalTransactions : nat)
    (firstReward lastReward : option Date).

Record Reply := {
  reply_status : nat;
  reply_success : bool;
  reply_message : option string;
  reply_payload : Payload
}.

Definition refused (code : nat) (msg : string) : Reply :=
  {| reply_status := code; reply_success := false;
     reply_message := Some msg; reply_payload := NoPayload |}.

Definition ok (msg : option string) (payload : Payload) : Reply :=
  {| reply_status := 200; reply_success := true;
     reply_message := msg; reply_payload := payload |}.

(** *** Bookmarks (places.js) *)

Definition bookmarks_of (id : ObjectId) (s : Site) : list ObjectId :=
  match bookmarks s !! id with
  | Some l => l
  | None => []
  end.

Definition set_bookmarks (id : ObjectId) (l : list ObjectId) (s : Site) : Site :=
  {| site_db := site_db s; roles := roles s;
     bookmarks := <[id := l]> (bookmarks s);
     blacklistedTokens := blacklistedTokens s |}.

(** [$addToSet] *)
Definition addToSet (x : ObjectId) (l : list ObjectId) : list ObjectId :=
  if bool_decide (x ∈ l) then l else l ++ [x].

(** [$pull] *)
Definition pull (x : ObjectId) (l : list ObjectId) : list ObjectId :=
  List.filter (fun y => negb (y =? x)%N) l.

(** [populate('bookmarks')]: the stored places the array refers to, in
    the order of the array; references to places that are gone are
    dropped. *)
Definition populate (ids : list ObjectId) (s : Site) : list Place :=
  omap (fun id => Places (site_db s) !! id) ids.

(** *** Roles (users.js) *)

Definition set_role (id : ObjectId) (role : string) (s : Site) : Site :=
  {| site_db := site_db s; roles := <[id := role]> (roles s);
     bookmarks := bookmarks s;
     blacklistedTokens := blacklistedTokens s |}.

(** *** Deletion (places.js, rewards.js) *)

Definition delete_Place (id : ObjectId) (db : DB) : DB :=
  {| Users := Users db; Places := delete id (Places db);
     Rewards := Rewards db; Checkins := Checkins db;
     RewardHistories := RewardHistories db |}.

Definition delete_Reward (id : ObjectId) (db : DB) : DB :=
  {| Users := Users db; Places := Places db;
     Rewards := delete id (Rewards db); Checkins := Checkins db;
     RewardHistories := RewardHistories db |}.

(** *** Statistics (users.js) *)

(** [$min: '$timestamp'] and [$max: '$timestamp'] over a group. *)
Definition min_timestamp (l : list RewardHistory) : option Date :=
  match l with
  | [] => None
  | e :: l' => Some (fold_left Z.min (map rh_timestamp l') (rh_timestamp e))
  end.

Definition max_timestamp (l : list RewardHistory) : option Date :=
  match l with
  | [] => None
  | e :: l' => Some (fold_left Z.max (map rh_timestamp l') (rh_timestamp e))
  end.

(** [req.user.id !== req.params.id]: [req.user.id] is the [ObjectId]
    object [user._id], [req.params.id] a string; [!==] converts neither,
    and operands of different types are not strictly equal. *)
Definition ObjectId_strict_neq_string (a : ObjectId) (b : string) : bool := true.

Section Routes.
Context `{JWT}.

(** [POST /api/auth/logout] *)
Definition logout (authorization : option string) (s : Site) : Site * Reply :=
  match bearer authorization with
  | Some (String c t) =>
      (blacklistToken (String c t) s, ok (Some "Logged out") NoPayload)
  | _ => (s, refused 400 "No token to logout")
  end.

(** [GET /api/places/:id] *)
Definition places_get (id : string) (s : Site) : Site * Reply :=
  match validateObjectId id with
  | Refused code msg => (s, refused code msg)
  | Next _ =>
      match Places (site_db s) !! ObjectId_of_hex id with
      | None => (s, refused 404 "Place not found")
      | Some place =>
          (s, ok (Some "Place retrieved successfully") (PlaceDoc place))
      end
  end.

(** [GET /api/rewards/:id] *)
Definition rewards_get (id : string) (s : Site) : Site * Reply :=
  match validateObjectId id with
  | Refused code msg => (s, refused code msg)
  | Next _ =>
      match Rewards (site_db s) !! ObjectId_of_hex id with
      | None => (s, refused 404 "Reward not found")
      | Some reward =>
          if negb (isActive reward) then (s, refused 404 "Reward not available")
          else (s, ok (Some "Reward retrieved successfully") (RewardDoc reward))
      end
  end.

(** [POST /api/places/:id/bookmark].  [findByIdAndUpdate] answers [null]
    for a user that is gone, and [updated.bookmarks] then throws. *)
Definition bookmark_post (authorization : option string) (id : string)
    (s : Site) : Site * Reply :=
  match auth authorization s with
  | Refused code msg => (s, refused code msg)
  | Next user =>
      match validateObjectId id with
      | Refused code msg => (s, refused code msg)
      | Next _ =>
          match Places (site_db s) !! ObjectId_of_hex id with
          | None => (s, refused 404 "Place not found")
          | Some _ =>
              match Users (site_db s) !! user_id user with
              | None => (s, refused 500 "Server error")
              | Some _ =>
                  let updated :=
                    addToSet (ObjectId_of_hex id)
                             (bookmarks_of (user_id user) s) in
                  (set_bookmarks (user_id user) updated s,
                   ok (Some "Bookmarked") (BookmarkIds updated))
              end
          end
      end
  end.

(** [DELETE /api/places/:id/bookmark] *)
Definition bookmark_delete (authorization : option string) (id : string)
    (s : Site) : Site * Reply :=
  match auth authorization s with
  | Refused code msg => (s, refused code msg)
  | Next user =>
      match validateObjectId id with
      | Refused code msg => (s, refused code msg)
      | Next _ =>
          match Users (site_db s) !! user_id user with
          | None => (s, refused 500 "Server error")
          | Some _ =>
              let updated :=
                pull (ObjectId_of_hex id) (bookmarks_of (user_id user) s) in
              (set_bookmarks (user_id user) updated s,
               ok (Some "Bookmark removed") (BookmarkIds updated))
          end
      end
  end.

(** [GET /api/places/bookmarks/me] *)
Definition bookmarks_me (authorization : option string) (s : Site)
  : Site * Reply :=
  match auth authorization s with
  | Refused code msg => (s, refused code msg)
  | Next user =>
      match Users (site_db s) !! user_id user with
      | None => (s, refused 404 "User not found")
      | Some _ =>
          (s, ok None (PlaceList (populate (bookmarks_of (user_id user) s) s)))
      end
  end.

(** [POST /api/places/:id/redeem], behind its middleware. *)
Definition places_redeem (authorization : option string) (id : string)
    (now : Date) (s : Site) : Site * Response :=
  match auth authorization s with
  | Refused code msg => (s, failure code (Text msg))
  | Next user =>
      match validateObjectId id with
      | Refused code msg => (s, failure code (Text msg))
      | Next _ =>
          let (db', r) :=
            place_redeem {| predeem_user_id := user_id user;
                            predeem_id := ObjectId_of_hex id;
                            predeem_now_logged := now |} (site_db s) in
          (set_db db' s, r)
      end
  end.

(** [POST /api/rewards/:id/redeem], behind its middleware. *)
Definition rewards_redeem (authorization : option string) (id : string)
    (now_expiry now_redeemed now_logged : Date) (s : Site) : Site * Response :=
  match auth authorization s with
  | Refused code msg => (s, failure code (Text msg))
  | Next user =>
      match validateObjectId id with
      | Refused code msg => (s, failure code (Text msg))
      | Next _ =>
          let (db', r) :=
            reward_redeem {| redeem_user_id := user_id user;
                             redeem_id := ObjectId_of_hex id;
                             redeem_now_expiry := now_expiry;
                             redeem_now_redeemed := now_redeemed;
                             redeem_now_logged := now_logged |} (site_db s) in
          (set_db db' s, r)
      end
  end.

(** [DELETE /api/places/:id] *)
Definition places_delete (authorization : option string) (id : string)
    (s : Site) : Site * Reply :=
  match auth authorization s with
  | Refused code msg => (s, refused code msg)
  | Next user =>
      match adminOnly user with
      | Refused code msg => (s, refused code msg)
      | Next _ =>
          match validateObjectId id with
          | Refused code msg => (s, refused code msg)
          | Next _ =>
              match Places (site_db s) !! ObjectId_of_hex id with
              | None => (s, refused 404 "Place not found")
              | Some _ =>
                  (set_db (delete_Place (ObjectId_of_hex id) (site_db s)) s,
                   ok (Some "Place deleted successfully") NoPayload)
              end
          end
      end
  end.

(** [DELETE /api/rewards/:id] *)
Definition rewards_delete (authorization : option string) (id : string)
    (s : Site) : Site * Reply :=
  match auth authorization s with
  | Refused code msg => (s, refused code msg)
  | Next user =>
      match adminOnly user with
      | Refused code msg => (s, refused code msg)
      | Next _ =>
          match validateObjectId id with
          | Refused code msg => (s, refused code msg)
          | Next _ =>
              match Rewards (site_db s) !! ObjectId_of_hex id with
              | None => (s, refused 404 "Reward not found")
              | Some _ =>
                  (set_db (delete_Reward (ObjectId_of_hex id) (site_db s)) s,
                   ok (Some "Reward deleted successfully") NoPayload)
              end
          end
      end
  end.

(** [POST /api/users/make-admin/:id]: no middleware in front. *)
Definition make_admin (id : string) (s : Site) : Site * Reply :=
  match castObjectId id with
  | None => (s, refused 500 "Server error")
  | Some oid =>
      match Users (site_db s) !! oid with
      | None => (s, refused 404 "User not found")
      | Some _ =>
          (set_role oid "admin" s,
           ok (Some "User promoted to admin") (UserRole oid "admin"))
      end
  end.

(** [GET /api/users/points] *)
Definition users_points (authorization : option string) (s : Site)
  : Site * Reply :=
  match auth authorization s with
  | Refused code msg => (s, refused code msg)
  | Next user =>
      match Users (site_db s) !! user_id user with
      | None => (s, refused 404 "User not found")
      | Some u => (s, ok None (Points (rewardPoints_total u)))
      end
  end.

(** [GET /api/users/is-admin] *)
Definition users_is_admin (authorization : option string) (s : Site)
  : Site * Reply :=
  match auth authorization s with
  | Refused code msg => (s, refused code msg)
  | Next user =>
      match Users (site_db s) !! user_id user with
      | None => (s, refused 404 "User not found")
      | Some _ =>
          (s, ok None
                (IsAdmin (bool_decide (roles s !! user_id user = Some "admin"))))
      end
  end.

(** [GET /api/users/:id/rewards], for a request without [page] and
    [limit]; the page of history entries is left out of the payload. *)
Definition users_rewards (authorization : option string) (id : string)
    (s : Site) : Site * Reply :=
  match auth authorization s with
  | Refused code msg => (s, refused code msg)
  | Next user =>
      match validateObjectId id with
      | Refused code msg => (s, refused code msg)
      | Next _ =>
          if ObjectId_strict_neq_string (user_id user) id
             && negb (bool_decide (user_role user = "admin"))
          then (s, refused 403 "Access denied. You can only view your own rewards.")
          else
            match Users (site_db s) !! ObjectId_of_hex id with
            | None => (s, refused 404 "User not found")
            | Some u =>
                let group := entries_of (ObjectId_of_hex id) (site_db s) in
                (s, ok (Some "Reward data retrieved successfully")
                      (Statistics (rewardPoints_total u)
                         (sum_amounts group) (length group)
                         (min_timestamp group) (max_timestamp group)))
            end
      end
  end.

(** *** The server *)

Inductive Request :=
| Logout (authorization : option string)
| GetPlace (id : string)
| GetReward (id : string)
| AddBookmark (authorization : option string) (id : string)
| RemoveBookmark (authorization : option string) (id : string)
| MyBookmarks (authorization : option string)
| RedeemPlace (authorization : option string) (id : string) (now : Date)
| RedeemReward (authorization : option string) (id : string)
    (now_expiry now_redeemed now_logged : Date)
| DeletePlace (authorization : option string) (id : string)
| DeleteReward (authorization : option string) (id : string)
| MakeAdmin (id : string)
| MyPoints (authorization : option string)
| AmIAdmin (authorization : option string)
| UserRewards (authorization : option string) (id : string).

Definition serve (r : Request) (s : Site) : Site * (Response + Reply) :=
  match r with
  | Logout a => prod_map id inr (logout a s)
  | GetPlace i => prod_map id inr (places_get i s)
  | GetReward i => prod_map id inr (rewards_get i s)
  | AddBookmark a i => prod_map id inr (bookmark_post a i s)
  | RemoveBookmark a i => prod_map id inr (bookmark_delete a i s)
  | MyBookmarks a => prod_map id inr (bookmarks_me a s)
  | RedeemPlace a i now => prod_map id inl (places_redeem a i now s)
  | RedeemReward a i n1 n2 n3 => prod_map id inl (rewards_redeem a i n1 n2 n3 s)
  | DeletePlace a i => prod_map id inr (places_delete a i s)
  | DeleteReward a i => prod_map id inr (rewards_delete a i s)
  | MakeAdmin i => prod_map id inr (make_admin i s)
  | MyPoints a => prod_map id inr (users_points a s)
  | AmIAdmin a => prod_map id inr (users_is_admin a s)
  | UserRewards a i => prod_map id inr (users_rewards a i s)
  end.

Definition serve_all (requests : list Request) (s : Site) : Site :=
  fold_left (fun s r => fst (serve r s)) requests s.

End Routes.

(** *** Sample tokens and accounts *)

(** A token for each of the users 7, 8 and 9, and an expired one. *)
Definition sample_jwt : JWT :=
  {| jwt_verify token :=
       if String.eqb token "token-7" then Decoded 7
       else if String.eqb token "token-8" then Decoded 8
       else if String.eqb token "token-9" then Decoded 9
       else if String.eqb token "token-old" then TokenExpiredError
       else JsonWebTokenError |}.

(** The sample database with user 9 an administrator. *)
Definition sample_site : Site :=
  {| site_db := sample_db;
     roles := {[ 7%N := "user"; 9%N := "admin" ]};
     bookmarks := ∅;
     blacklistedTokens := ∅ |}.

Definition sample_id (n : string) : string := "00000000000000000000000" +:+ n.


(** *** What one request may do to the site

    Nothing; blacklist a token; rewrite the bookmarks of a stored user by
    [$addToSet] or [$pull]; take one step of the ledger; delete a place or
    a reward on behalf of an administrator; make a stored user an
    administrator. *)
Inductive effect (s s' : Site) : Prop :=
| effect_none :
    s' = s -> effect s s'
| effect_logout (token : string) :
    token <> EmptyString ->
    s' = blacklistToken token s -> effect s s'
| effect_bookmarks (uid x : ObjectId) (l : list ObjectId) :
    is_Some (Users (site_db s) !! uid) ->
    l = addToSet x (bookmarks_of uid s) \/ l = pull x (bookmarks_of uid s) ->
    s' = set_bookmarks uid l s -> effect s s'
| effect_ledger (db' : DB) :
    ledger_step (site_db s) db' -> extends (site_db s) db' ->
    s' = set_db db' s -> effect s s'
| effect_delete_place (admin oid : ObjectId) :
    roles s !! admin = Some "admin" ->
    is_Some (Users (site_db s) !! admin) ->
    s' = set_db (delete_Place oid (site_db s)) s -> effect s s'
| effect_delete_reward (admin oid : ObjectId) :
    roles s !! admin = Some "admin" ->
    is_Some (Users (site_db s) !! admin) ->
    s' = set_db (delete_Reward oid (site_db s)) s -> effect s s'
| effect_make_admin (oid : ObjectId) :
    is_Some (Users (site_db s) !! oid) ->
    s' = set_role oid "admin" s -> effect s s'.


(** A request that carries the token of a stored administrator which is
    not blacklisted. *)
Definition sent_by_admin `{JWT} (authorization : option string) (s : Site) : Prop :=
  exists token admin,
    bearer authorization = Some token /\
    (token ∉ blacklistedTokens s) /\
    jwt_verify token = Decoded admin /\
    is_Some (Users (site_db s) !! admin) /\
    roles s !! admin = Some "admin".

Definition is_MakeAdmin (r : Request) : bool :=
  match r with
  | MakeAdmin _ => true
  | _ => false
  end.

(** *** The leaderboard (users.js) *)

(** The order of [sort({ 'rewardPoints.total': -1 })]. *)
Definition by_total_desc (x y : ObjectId * User) : Prop :=
  rewardPoints_total (snd y) <= rewardPoints_total (snd x).

(** [User.find({}).sort({ 'rewardPoints.total': -1 })]: the stored users,
    the highest total first.  The order among users of equal total is the
    store's; the embedding is parametric in the sort. *)
Class MongoSort := {
  find_sorted : gmap N User -> list (ObjectId * User)
}.

Class MongoSortLaws `{MongoSort} : Prop := {
  find_sorted_all : forall m, find_sorted m ≡ₚ map_to_list m;
  find_sorted_sorted : forall m, StronglySorted by_total_desc (find_sorted m)
}.

Section Leaderboard.
Context `{MongoSort}.

(** [GET /api/users/leaderboard]: [.limit(3)].  An entry of the answer is
    kept as the user's id and total. *)
Definition users_leaderboard (s : Site) : Site * Reply :=
  (s, ok None
        (Leaderboard
           (map (fun x => (fst x, rewardPoints_total (snd x)))
                (take 3 (find_sorted (Users (site_db s))))))).

End Leaderboard.

#[local] Instance by_total_desc_dec (x y : ObjectId * User) :
  Decision (by_total_desc x y) := Z_le_dec _ _.

(** A sort for evaluating the route: merge sort on the users by id. *)
Definition merge_sorted : MongoSort :=
  {| find_sorted m := merge_sort by_total_desc (map_to_list m) |}.

(** The sample site with a fourth user. *)
Definition sample_site_of_four : Site :=
  set_db (set_Users <[10%N := {| rewardPoints_total := 70; user_rewards := [] |}]>
            sample_db) sample_site.

(** * Properties *)

(** ** The handler monad and [save] *)

Ltac unfold_async :=
  unfold try_catch, async_bind, async_ret, respond, throw,
    Place_findById, Reward_findById, User_findById, Checkin_findOne,
    Checkin_create, RewardHistory_create.

Lemma pushed_rewards_none (u : User) (t : Z) :
  pushed_rewards u {| rewardPoints_total := t; user_rewards := user_rewards u |} = [].
Proof. unfold pushed_rewards; simpl. apply drop_all. Qed.

Lemma pushed_rewards_app (u : User) (t : Z) (ext : list RedeemedReward) :
  pushed_rewards u
    {| rewardPoints_total := t; user_rewards := user_rewards u ++ ext |} = ext.
Proof. unfold pushed_rewards; simpl. apply drop_app_length. Qed.

(** Saving a document whose total moved by [n <> 0]: the [min: 0]
    validator decides, and the stored total becomes the new one. *)
Lemma User_save_add (id : ObjectId) (u : User) (n : Z) (db : DB) :
  Users db !! id = Some u -> n <> 0 ->
  User_save id u
    {| rewardPoints_total := rewardPoints_total u + n;
       user_rewards := user_rewards u |} db =
  if 0 <=? rewardPoints_total u + n then
    (set_Users
       <[id := {| rewardPoints_total := rewardPoints_total u + n;
                  user_rewards := user_rewards u |}]> db, Value tt)
  else (db, Thrown).
Proof.
  intros Hu Hn. unfold User_save, save_changes, total_valid, total_modified.
  rewrite pushed_rewards_none, Hu. cbn [rewardPoints_total user_rewards].
  assert ((rewardPoints_total u + n =? rewardPoints_total u) = false) as ->
    by (apply Z.eqb_neq; lia).
  rewrite app_nil_r. cbn.
  destruct (0 <=? rewardPoints_total u + n); reflexivity.
Qed.

(** Saving an unmodified document writes nothing and validates nothing. *)
Lemma User_save_unmodified (id : ObjectId) (u : User) (db : DB) :
  User_save id u
    {| rewardPoints_total := rewardPoints_total u + 0;
       user_rewards := user_rewards u |} db = (db, Value tt).
Proof.
  unfold User_save, total_valid, total_modified.
  rewrite pushed_rewards_none. cbn [rewardPoints_total user_rewards].
  rewrite Z.add_0_r, Z.eqb_refl. reflexivity.
Qed.

(** Saving after a debit of [c] and one pushed snapshot. *)
Lemma User_save_debit (id : ObjectId) (u : User) (c : Z) (snap : RedeemedReward)
    (db : DB) :
  Users db !! id = Some u ->
  User_save id u
    {| rewardPoints_total := rewardPoints_total u - c;
       user_rewards := user_rewards u ++ [snap] |} db =
  if ((c =? 0) || (0 <=? rewardPoints_total u - c)) && snapshot_valid snap then
    (set_Users
       <[id := {| rewardPoints_total := rewardPoints_total u - c;
                  user_rewards := user_rewards u ++ [snap] |}]> db, Value tt)
  else (db, Thrown).
Proof.
  intros Hu. unfold User_save, save_changes, total_valid, total_modified.
  rewrite pushed_rewards_app, Hu. cbn [rewardPoints_total user_rewards forallb].
  rewrite andb_true_r.
  destruct (Z.eqb_spec c 0) as [-> | Hc].
  - rewrite Z.sub_0_r, Z.eqb_refl. cbn.
    destruct (snapshot_valid snap); reflexivity.
  - assert ((rewardPoints_total u - c =? rewardPoints_total u) = false) as ->
      by (apply Z.eqb_neq; lia).
    cbn.
    destruct (0 <=? rewardPoints_total u - c), (snapshot_valid snap); reflexivity.
Qed.

(** ** Check-in *)

Section CheckinFacts.
Context `{LocalCalendar}.

Lemma find_same_day_None (req : CheckinRequest) (db : DB) :
  List.find
    (same_day_query (req_user_id req) (req_placeId req)
       (setHours_0 (checkin_now_today req))
       (setDate_next (setHours_0 (checkin_now_today req))))
    (Checkins db) = None
  <-> ~ already_checked_in req db.
Proof.
  unfold already_checked_in, same_day_query. split.
  - intros Hfind (c & Hin & Hu & Hp & Hlo & Hhi).
    apply (find_none _ _ Hfind) in Hin.
    rewrite Hu, Hp, !N.eqb_refl in Hin. simpl in Hin.
    apply andb_false_iff in Hin as [Hin | Hin]; [apply Z.leb_gt in Hin | apply Z.ltb_ge in Hin]; lia.
  - intros Hno.
    destruct (List.find _ _) as [c|] eqn:Hfind; [|reflexivity].
    exfalso. apply Hno. exists c.
    apply find_some in Hfind as [Hin Hq].
    apply andb_true_iff in Hq as [Hq Hhi].
    apply andb_true_iff in Hq as [Hq Hlo].
    apply andb_true_iff in Hq as [Hu Hp].
    apply N.eqb_eq in Hu, Hp. apply Z.leb_le in Hlo. apply Z.ltb_lt in Hhi.
    repeat split; assumption.
Qed.

(** The handler past the distance computation, flattened: one result
    per path. *)
Lemma checkin_at_distance_run (req : CheckinRequest) (place : Place)
    (d : float) (db : DB) :
  try_catch (checkin_at_distance req place d) db =
  if (20 <? d)%float then (db, failure 400 (TooFar (Math_round d)))
  else if (d <? 10)%float then (db, failure 400 (TooClose (Math_round d)))
  else
    match List.find
            (same_day_query (req_user_id req) (req_placeId req)
               (setHours_0 (checkin_now_today req))
               (setDate_next (setHours_0 (checkin_now_today req))))
            (Checkins db) with
    | Some _ =>
        (db, failure 409 (Text "Already checked in at this place today"))
    | None =>
        match Users db !! req_user_id req with
        | None => (with_checkin req db, server_error)
        | Some u =>
            if 0 <=? rewardPoints_total u + 10
            then (after_checkin req place u db, checkin_created req place u d)
            else (with_checkin req db, server_error)
        end
    end.
Proof.
  unfold checkin_at_distance.
  destruct (20 <? d)%float; [reflexivity|].
  destruct (d <? 10)%float; [reflexivity|].
  unfold_async. cbn [fst snd].
  destruct (List.find _ _); [reflexivity|].
  cbn [Users].
  destruct (Users db !! req_user_id req) as [u|] eqn:Hu; [|reflexivity].
  match goal with |- context [User_save ?i ?a ?b ?d] =>
    pose proof (User_save_add i u 10 d) as Hsave end.
  cbn [Users] in Hsave. rewrite Hsave by (assumption || lia).
  destruct (0 <=? rewardPoints_total u + 10); reflexivity.
Qed.
End CheckinFacts.

(** ** Comparisons of doubles *)

Lemma SFcompare_antisym (x y : spec_float) :
  SFcompare y x = option_map CompOpp (SFcompare x y).
Proof.
  destruct x as [sx | sx | | sx mx ex], y as [sy | sy | | sy my ey];
    try reflexivity;
    try (destruct sx; reflexivity); try (destruct sy; reflexivity);
    try (destruct sx, sy; reflexivity).
  cbn. destruct sx, sy; try reflexivity.
  - rewrite (Z.compare_antisym ey ex).
    destruct (ey ?= ex) eqn:He; cbn; try reflexivity.
    rewrite (Pos.compare_cont_antisym mx my Eq). reflexivity.
  - rewrite (Z.compare_antisym ey ex).
    destruct (ey ?= ex) eqn:He; cbn; try reflexivity.
    rewrite (Pos.compare_cont_antisym mx my Eq). reflexivity.
Qed.

Lemma is_nan_false_compare (x y : float) :
  is_nan x = false -> is_nan y = false ->
  exists c, SFcompare (Prim2SF x) (Prim2SF y) = Some c.
Proof.
  unfold is_nan. rewrite !FloatAxioms.eqb_spec. unfold SFeqb.
  intros Hx Hy.
  destruct (Prim2SF x) as [sx | sx | | sx mx ex]; try discriminate Hx;
  destruct (Prim2SF y) as [sy | sy | | sy my ey]; try discriminate Hy;
    cbn; eauto.
Qed.

(** On numbers, [x < y] fails exactly when [y <= x]; on NaN both fail. *)
Lemma ltb_false_iff_leb (x y : float) :
  is_nan x = false -> is_nan y = false ->
  (x <? y)%float = false <-> (y <=? x)%float = true.
Proof.
  intros Hx Hy. rewrite FloatAxioms.ltb_spec, FloatAxioms.leb_spec.
  unfold SFltb, SFleb.
  rewrite (SFcompare_antisym (Prim2SF x) (Prim2SF y)).
  destruct (is_nan_false_compare x y Hx Hy) as [c ->].
  destruct c; cbn; split; congruence.
Qed.


(** A NaN distance passes both guards. *)
Lemma passes_distance_guards_nan : passes_distance_guards nan = true.
Proof. reflexivity. Qed.

Section CheckinBand.
Context `{LocalCalendar} `{JSMath}.

Lemma checkin_post_run (req : CheckinRequest) (db : DB) :
  checkin_post req db =
  match Places db !! req_placeId req with
  | None => (db, failure 404 (Text "Place not found"))
  | Some place =>
      try_catch (checkin_at_distance req place (request_distance req place)) db
  end.
Proof.
  unfold checkin_post, request_distance.
  unfold try_catch at 1, async_bind at 1, Place_findById.
  destruct (Places db !! req_placeId req) as [place|]; [|reflexivity].
  unfold try_catch. cbn zeta.
  destruct (checkin_at_distance _ _ _ db) as [db' [r | r |]]; reflexivity.
Qed.


End CheckinBand.



(** ** A second check-in on the same day *)

Section CheckinSameDay.
Context `{LocalCalendar} `{JSMath}.

(** C2 (as amended).  When the user already has a check-in at the place
    within the current local day, a further attempt is never accepted and
    writes nothing: it fails with Conflict (409) when its distance passes
    the two distance guards, and with 400 when it does not, because the
    distance is tested before the same-day lookup. *)
Theorem second_checkin_same_day (req : CheckinRequest) (db : DB)
    (place : Place) :
  Places db !! req_placeId req = Some place ->
  already_checked_in req db ->
  let d := request_distance req place in
  let r := checkin_post req db in
  fst r = db /\
  (passes_distance_guards d = true -> status (snd r) = 409%nat) /\
  (passes_distance_guards d = false -> status (snd r) = 400%nat).
Proof.
  intros Hplace Hdup d r. subst r.
  rewrite checkin_post_run, Hplace, checkin_at_distance_run. fold d.
  destruct (List.find _ (Checkins db)) as [c|] eqn:Hfind.
  2:{ apply find_same_day_None in Hfind. contradiction. }
  unfold passes_distance_guards.
  destruct (20 <? d)%float; [cbn; repeat split; (reflexivity || discriminate)|].
  destruct (d <? 10)%float; cbn; repeat split; (reflexivity || discriminate).
Qed.
End CheckinSameDay.

Example sample_checkin_is_accepted :
  status (snd (@checkin_post utc series_math (sample_checkin 7 1700000000000)
                 sample_db)) = 201%nat.
Proof. vm_compute. reflexivity. Qed.

(** The accepted check-in of user 7 stored one Checkin record, credited
    10 points and logged one ledger entry. *)
Lemma sample_db_checked_in_eq :
  sample_db_checked_in =
  after_checkin (sample_checkin 7 1700000000000) sample_place
    {| rewardPoints_total := 50; user_rewards := [] |} sample_db.
Proof. vm_compute. reflexivity. Qed.

(** Requests of user 7 at place 1 on 14 November 2023 (UTC) find that
    check-in. *)
Lemma sample_already_checked_in (req : CheckinRequest) :
  req_user_id req = 7%N -> req_placeId req = 1%N ->
  1699920000000 <= checkin_now_today req < 1700006400000 ->
  @already_checked_in utc req sample_db_checked_in.
Proof.
  intros Hu Hp Hday. unfold already_checked_in.
  rewrite sample_db_checked_in_eq.
  exists (checkin_record (sample_checkin 7 1700000000000)).
  split; [left; reflexivity|].
  rewrite Hu, Hp. split; [reflexivity|]. split; [reflexivity|].
  cbn [setHours_0 setDate_next utc checkin_timestamp checkin_record
       checkin_now_created sample_checkin].
  pose proof (Z.mod_pos_bound (checkin_now_today req) 86400000 eq_refl).
  assert (checkin_now_today req `div` 86400000 = 19675) by
    (symmetry; apply (Z.div_unique _ _ _ (checkin_now_today req - 1699920000000)); lia).
  pose proof (Z.div_mod (checkin_now_today req) 86400000). lia.
Qed.

(** The theorem at a second attempt of user 7, one second after the
    accepted one and from the same spot. *)
Lemma second_checkin_same_day_witness :
  let req := sample_checkin 7 1700000001000 in
  let r := @checkin_post utc series_math req sample_db_checked_in in
  fst r = sample_db_checked_in /\
  (passes_distance_guards (@request_distance series_math req sample_place) = true ->
   status (snd r) = 409%nat) /\
  (passes_distance_guards (@request_distance series_math req sample_place) = false ->
   status (snd r) = 400%nat).
Proof.
  apply (@second_checkin_same_day utc series_math
           (sample_checkin 7 1700000001000) sample_db_checked_in sample_place).
  - vm_compute; reflexivity.
  - apply sample_already_checked_in; [reflexivity | reflexivity | simpl; lia].
Defined.

(** C2, counterexample to the claim as stated.  User 7 has an accepted
    check-in at place 1 today; the second attempt on the same day is
    answered 400 (too far), not 409: at the explicit distance 50, and
    through the whole route from coordinates 0.01 degree of latitude
    away. *)
Lemma second_checkin_too_far_is_400_not_409 :
  @already_checked_in utc sample_checkin_far sample_db_checked_in /\
  status (snd (try_catch
                 (@checkin_at_distance utc sample_checkin_far sample_place
                    50%float) sample_db_checked_in)) = 400%nat /\
  status (snd (@checkin_post utc series_math sample_checkin_far
                 sample_db_checked_in)) = 400%nat.
Proof.
  split.
  - apply sample_already_checked_in; [reflexivity | reflexivity | simpl; lia].
  - split; vm_compute; reflexivity.
Qed.

Example second_attempt_in_band_is_409 :
  status (snd (@checkin_post utc series_math (sample_checkin 7 1700000001000)
                 sample_db_checked_in)) = 409%nat.
Proof. vm_compute. reflexivity. Qed.

(** ** Reward redemption *)

(** The handler flattened: one result per path.  Once the balance test
    has passed, the only validator of [save] that can still fail is
    [min: 0] on the cost of the pushed snapshot. *)
Lemma reward_redeem_run (req : RedeemRequest) (db : DB) :
  reward_redeem req db =
  match Rewards db !! redeem_id req with
  | None => (db, failure 404 (Text "Reward not found"))
  | Some reward =>
      if negb (isActive reward) then
        (db, failure 400 (Text "Reward is not available"))
      else if reward_expired (redeem_now_expiry req) reward then
        (db, failure 400 (Text "Reward has expired"))
      else
        match Users db !! redeem_user_id req with
        | None => (db, failure 404 (Text "User not found"))
        | Some u =>
            if rewardPoints_total u <? pointsCost reward then
              (db, failure 400
                     (Text (insufficient_points (pointsCost reward)
                              (rewardPoints_total u))))
            else if 0 <=? pointsCost reward then
              (after_redeem req reward u db, redeemed req reward u)
            else (db, server_error)
        end
  end.
Proof.
  unfold reward_redeem. unfold_async.
  destruct (Rewards db !! redeem_id req) as [reward|]; [|reflexivity].
  destruct (isActive reward); cbn [negb]; [|reflexivity].
  destruct (reward_expired _ reward); [reflexivity|].
  destruct (Users db !! redeem_user_id req) as [u|] eqn:Hu; [|reflexivity].
  destruct (Z.ltb_spec (rewardPoints_total u) (pointsCost reward)) as [Hlt|Hge];
    [reflexivity|].
  rewrite (User_save_debit _ u (pointsCost reward) _ db Hu).
  unfold snapshot_valid. cbn [rr_pointsCost].
  assert ((0 <=? rewardPoints_total u - pointsCost reward) = true) as ->
    by (apply Z.leb_le; lia).
  rewrite orb_true_r. cbn [andb].
  destruct (0 <=? pointsCost reward); reflexivity.
Qed.

(** C3 (as amended).  The preconditions of a reward redemption are tested
    in this order, the first failure deciding the response and nothing
    being written: the reward exists (else 404); it is active (else 400);
    it is not expired, that is, it has no [validUntil] or the current time
    is not later than [validUntil] (else 400); the user exists (else 404);
    the balance covers the cost (else 400, with a message that spells out
    the cost and the balance).  When all of them hold the response is
    neither 400 nor 404. *)
Theorem redeem_preconditions_in_order (req : RedeemRequest) (db : DB) :
  let r := reward_redeem req db in
  match Rewards db !! redeem_id req with
  | None => r = (db, failure 404 (Text "Reward not found"))
  | Some reward =>
      (isActive reward = false ->
       r = (db, failure 400 (Text "Reward is not available"))) /\
      (isActive reward = true ->
       (forall expiry, validUntil reward = Some expiry ->
          expiry < redeem_now_expiry req ->
          r = (db, failure 400 (Text "Reward has expired"))) /\
       (validUntil reward = None \/
        (exists expiry, validUntil reward = Some expiry /\
                       redeem_now_expiry req <= expiry) ->
        match Users db !! redeem_user_id req with
        | None => r = (db, failure 404 (Text "User not found"))
        | Some u =>
            (rewardPoints_total u < pointsCost reward ->
             r = (db, failure 400
                        (Text ("Insufficient points. You need " +:+
                               pretty (pointsCost reward) +:+
                               " points but have " +:+
                               pretty (rewardPoints_total u))))) /\
            (pointsCost reward <= rewardPoints_total u ->
             status (snd r) <> 400%nat /\ status (snd r) <> 404%nat /\
             (0 <= pointsCost reward ->
              r = (after_redeem req reward u db, redeemed req reward u)))
        end))
  end.
Proof.
  intros r. subst r. rewrite reward_redeem_run.
  destruct (Rewards db !! redeem_id req) as [reward|]; [|reflexivity].
  split; [intros ->; reflexivity|].
  intros ->. cbn [negb]. unfold reward_expired. split.
  - intros expiry -> Hlt. apply Z.ltb_lt in Hlt. rewrite Hlt. reflexivity.
  - intros Hvalid.
    assert (match validUntil reward with
            | Some expiry => expiry <? redeem_now_expiry req
            | None => false
            end = false) as ->.
    { destruct Hvalid as [-> | (expiry & -> & Hle)]; [reflexivity|].
      apply Z.ltb_ge. exact Hle. }
    destruct (Users db !! redeem_user_id req) as [u|]; [|reflexivity].
    split.
    + intros Hlt. apply Z.ltb_lt in Hlt. rewrite Hlt. reflexivity.
    + intros Hge. apply Z.ltb_ge in Hge. rewrite Hge.
      destruct (Z.leb_spec 0 (pointsCost reward)) as [Hpos|Hneg]; cbn.
      * repeat split; (discriminate || reflexivity).
      * repeat split; (discriminate || lia).
Qed.

(** The second example of the specification: with 20 points left, the
    30-point reward is refused with the message quoting both amounts. *)
Example insufficient_points_30_20 :
  insufficient_points 30 20 = "Insufficient points. You need 30 points but have 20".
Proof. vm_compute. reflexivity. Qed.

(** C3, counterexample to the claim as stated.  Reward 3 carries
    [validUntil = 1700000000000]; at that very instant [validUntil] is not
    in the future, yet the redemption is not refused as expired: the test
    is [new Date() > reward.validUntil], and user 7 gets the reward. *)
Lemma redeem_at_validUntil_succeeds :
  validUntil sample_reward = Some (redeem_now_expiry (sample_redeem 7 1700000000000))
  /\ Rewards sample_db !! redeem_id (sample_redeem 7 1700000000000)
      = Some sample_reward
  /\ status (snd (reward_redeem (sample_redeem 7 1700000000000) sample_db))
      = 200%nat
  /\ balance 7 (fst (reward_redeem (sample_redeem 7 1700000000000) sample_db))
      = Some 20.
Proof. repeat split; vm_compute; reflexivity. Qed.

(** ** Place redemption *)

Lemma place_redeem_run (req : PlaceRedeemRequest) (db : DB) :
  place_redeem req db =
  match Places db !! predeem_id req with
  | None => (db, failure 404 (Text "Place not found"))
  | Some place =>
      match place_award place with
      | None => (db, failure 400 (Text "Place not eligible for redemption"))
      | Some n =>
          match Users db !! predeem_user_id req with
          | None => (db, failure 404 (Text "User not found"))
          | Some u =>
              if (n =? 0) || (0 <=? rewardPoints_total u + n)
              then (after_place_redeem req place n u db, place_redeemed n u)
              else (db, server_error)
          end
      end
  end.
Proof.
  unfold place_redeem, place_award. unfold_async.
  destruct (Places db !! predeem_id req) as [place|]; [|reflexivity].
  destruct (redemption place) as [red|]; [|reflexivity].
  destruct (eligible red); cbn [negb]; [|reflexivity].
  destruct (Users db !! predeem_user_id req) as [u|] eqn:Hu; [|reflexivity].
  unfold after_place_redeem.
  destruct (Z.eqb_spec (pointsCost_or_0 (redemption_pointsCost red)) 0)
    as [Hz | Hnz].
  - rewrite Hz, User_save_unmodified. cbn. reflexivity.
  - rewrite (User_save_add _ u _ db Hu Hnz). cbn [orb].
    destruct (0 <=? _); reflexivity.
Qed.

(** ** Balances and ledger under any sequence of requests *)

Section LedgerSteps.
Context `{LocalCalendar} `{JSMath}.

Lemma checkin_post_ledger_step (req : CheckinRequest) (db : DB) :
  ledger_step db (fst (checkin_post req db)).
Proof.
  rewrite checkin_post_run.
  destruct (Places db !! req_placeId req) as [place|];
    [|apply ledger_untouched; reflexivity].
  rewrite checkin_at_distance_run.
  destruct (20 <? _)%float; [apply ledger_untouched; reflexivity|].
  destruct (_ <? 10)%float; [apply ledger_untouched; reflexivity|].
  destruct (List.find _ _); [apply ledger_untouched; reflexivity|].
  destruct (Users db !! req_user_id req) as [u|] eqn:Hu;
    [|apply ledger_untouched; reflexivity].
  destruct (Z.leb_spec 0 (rewardPoints_total u + 10));
    [|apply ledger_untouched; reflexivity].
  apply (ledger_applied _ _ (req_user_id req) u (credited 10 u)
           (checkin_entry req place)); cbn; try (reflexivity || assumption).
  - apply lookup_insert_eq.
  - intros id' Hne. apply lookup_insert_ne. congruence.
  - intros _. assumption.
Qed.

Lemma reward_redeem_ledger_step (req : RedeemRequest) (db : DB) :
  ledger_step db (fst (reward_redeem req db)).
Proof.
  rewrite reward_redeem_run.
  destruct (Rewards db !! redeem_id req) as [reward|];
    [|apply ledger_untouched; reflexivity].
  destruct (negb _); [apply ledger_untouched; reflexivity|].
  destruct (reward_expired _ _); [apply ledger_untouched; reflexivity|].
  destruct (Users db !! redeem_user_id req) as [u|] eqn:Hu;
    [|apply ledger_untouched; reflexivity].
  destruct (Z.ltb_spec (rewardPoints_total u) (pointsCost reward));
    [apply ledger_untouched; reflexivity|].
  destruct (0 <=? pointsCost reward); [|apply ledger_untouched; reflexivity].
  apply (ledger_applied _ _ (redeem_user_id req) u (debited req reward u)
           (redeem_entry req reward)); cbn; try (reflexivity || assumption).
  - apply lookup_insert_eq.
  - intros id' Hne. apply lookup_insert_ne. congruence.
  - unfold user_valid; cbn. lia.
Qed.

Lemma place_redeem_ledger_step (req : PlaceRedeemRequest) (db : DB) :
  ledger_step db (fst (place_redeem req db)).
Proof.
  rewrite place_redeem_run.
  destruct (Places db !! predeem_id req) as [place|];
    [|apply ledger_untouched; reflexivity].
  destruct (place_award place) as [n|]; [|apply ledger_untouched; reflexivity].
  destruct (Users db !! predeem_user_id req) as [u|] eqn:Hu;
    [|apply ledger_untouched; reflexivity].
  destruct (Z.eqb_spec n 0) as [-> | Hn]; cbn [orb].
  - apply (ledger_applied _ _ (predeem_user_id req) u u
             (place_entry req place 0)); cbn; try (reflexivity || assumption || lia || tauto).
  - destruct (Z.leb_spec 0 (rewardPoints_total u + n));
      [|apply ledger_untouched; reflexivity].
    apply (ledger_applied _ _ (predeem_user_id req) u (credited n u)
             (place_entry req place n)); cbn; try (reflexivity || assumption).
    + apply Z.eqb_neq in Hn. rewrite Hn. apply lookup_insert_eq.
    + intros id' Hne. apply Z.eqb_neq in Hn. rewrite Hn.
      apply lookup_insert_ne. congruence.
    + intros _. assumption.
Qed.

Lemma run_op_ledger_step (op : Operation) (db : DB) :
  ledger_step db (fst (run_op op db)).
Proof.
  destruct op; cbn [run_op].
  - apply checkin_post_ledger_step.
  - apply reward_redeem_ledger_step.
  - apply place_redeem_ledger_step.
Qed.

Lemma run_ops_cons (op : Operation)
    (ops : list Operation) (db : DB) :
  fst (run_ops (op :: ops) db) = fst (run_ops ops (fst (run_op op db))).
Proof.
  cbn [run_ops]. destruct (run_op op db) as [db1 r]. cbn [fst].
  destruct (run_ops ops db1). reflexivity.
Qed.

Lemma ledger_step_users_valid (db db' : DB) :
  ledger_step db db' -> users_valid db -> users_valid db'.
Proof.
  intros [HU _ | id u u' e Hu Hu' Hother _ _ _ Hval] Hall id0 u0 Hlook.
  - rewrite HU in Hlook. eauto.
  - destruct (decide (id0 = id)) as [-> | Hne].
    + rewrite Hu' in Hlook. injection Hlook as <-. apply Hval. eauto.
    + rewrite (Hother _ Hne) in Hlook. eauto.
Qed.

Lemma sum_amounts_app (l1 l2 : list RewardHistory) :
  sum_amounts (l1 ++ l2) = sum_amounts l1 + sum_amounts l2.
Proof.
  unfold sum_amounts. induction l1 as [|e l1 IH]; cbn; [reflexivity|].
  fold (sum_amounts (l1 ++ l2)) in *. lia.
Qed.



(** A property kept by every [ledger_step] holds after any sequence of
    requests. *)
Lemma run_ops_ledger_invariant (P : DB -> Prop) (ops : list Operation) (db : DB) :
  (forall db1 db2, ledger_step db1 db2 -> P db1 -> P db2) ->
  P db -> P (fst (run_ops ops db)).
Proof.
  intros Hstep. revert db.
  induction ops as [|op ops IH]; intros db HP; [exact HP|].
  rewrite run_ops_cons. apply IH.
  apply (Hstep db); [apply run_op_ledger_step | exact HP].
Qed.

(** C5.  The points total is never negative: from a database whose
    totals are non-negative, every sequence of check-ins, reward
    redemptions and place redemptions, and so every single one of them,
    leaves all totals non-negative; and a reward redemption by a user whose
    balance is below the cost of the reward is refused with 400 and
    changes nothing. *)
Theorem points_total_never_negative (ops : list Operation) (db : DB) :
  users_valid db ->
  users_valid (fst (run_ops ops db)) /\
  (forall op, users_valid (fst (run_op op db))) /\
  (forall req reward u,
     Rewards db !! redeem_id req = Some reward ->
     Users db !! redeem_user_id req = Some u ->
     rewardPoints_total u < pointsCost reward ->
     status (snd (reward_redeem req db)) = 400%nat /\
     fst (reward_redeem req db) = db).
Proof.
  intros Hvalid. split; [|split].
  - apply run_ops_ledger_invariant; [|exact Hvalid].
    intros db1 db2. apply ledger_step_users_valid.
  - intros op. apply (ledger_step_users_valid db); [|exact Hvalid].
    apply run_op_ledger_step.
  - intros req reward u Hreward Hu Hlt.
    rewrite reward_redeem_run, Hreward, Hu.
    destruct (negb _); [split; reflexivity|].
    destruct (reward_expired _ _); [split; reflexivity|].
    apply Z.ltb_lt in Hlt. rewrite Hlt. split; reflexivity.
Qed.

End LedgerSteps.

Lemma sample_db_users_valid : users_valid sample_db.
Proof.
  intros id u. unfold sample_db. cbn [Users].
  rewrite !lookup_insert, lookup_singleton. repeat case_decide.
  all: first [ intros [= <-]; unfold user_valid; cbn; lia | discriminate ].
Qed.

(** The theorem on the sample database and the three requests of user 8. *)
Lemma points_total_never_negative_witness :
  users_valid sample_db /\
  users_valid (fst (@run_ops utc series_math sample_ops sample_db)).
Proof.
  split; [exact sample_db_users_valid|].
  exact (proj1 (@points_total_never_negative utc series_math sample_ops
                  sample_db sample_db_users_valid)).
Defined.


Example sample_ops_result :
  map status (snd (@run_ops utc series_math sample_ops sample_db))
    = [201; 200; 200]%nat /\
  balance 8 (fst (@run_ops utc series_math sample_ops sample_db)) = Some 5 /\
  map rh_amount (entries_of 8 (fst (@run_ops utc series_math sample_ops sample_db)))
    = [10; 25; -30].
Proof. repeat split; vm_compute; reflexivity. Qed.

(** ** Accepted check-ins and the ledger *)

Section CheckinLedger.
Context `{LocalCalendar} `{JSMath}.

Lemma checkin_post_accepted_inv (req : CheckinRequest) (db : DB) :
  status (snd (checkin_post req db)) = 201%nat ->
  exists place u,
    Places db !! req_placeId req = Some place /\
    Users db !! req_user_id req = Some u /\
    checkin_post req db =
      (after_checkin req place u db,
       checkin_created req place u (request_distance req place)).
Proof.
  rewrite checkin_post_run.
  destruct (Places db !! req_placeId req) as [place|]; [|discriminate].
  rewrite checkin_at_distance_run.
  destruct (20 <? _)%float; [discriminate|].
  destruct (_ <? 10)%float; [discriminate|].
  destruct (List.find _ _); [discriminate|].
  destruct (Users db !! req_user_id req) as [u|]; [|discriminate].
  destruct (0 <=? _); [|discriminate].
  intros _. exists place, u. repeat split.
Qed.

Lemma balance_after_checkin (req : CheckinRequest) (place : Place) (u : User)
    (db : DB) (id : ObjectId) (b : Z) :
  Users db !! req_user_id req = Some u ->
  balance id db = Some b ->
  balance id (after_checkin req place u db) =
  Some (if (req_user_id req =? id)%N then b + 10 else b).
Proof.
  intros Hu Hb. unfold balance in *. cbn [Users after_checkin].
  destruct (N.eqb_spec (req_user_id req) id) as [<- | Hne].
  - rewrite lookup_insert_eq. rewrite Hu in Hb. cbn in *. congruence.
  - rewrite lookup_insert_ne by assumption. exact Hb.
Qed.

(** C4.  Every accepted check-in stores exactly one Checkin record, adds
    exactly 10 to the total of the requesting user and appends exactly one
    ledger entry of +10 whose reason names the place.  Hence, over any run
    of accepted check-ins, a user who made N of them gains 10 * N points
    and N such entries; starting from balance 0 and an empty ledger the
    balance is 10 * N and the ledger holds exactly N entries, all +10. *)
Theorem accepted_checkins_award_10_each (reqs : list CheckinRequest)
    (db db' : DB) (rs : list Response) (id : ObjectId) (b0 : Z) :
  run_ops (map CheckinOp reqs) db = (db', rs) ->
  Forall (fun r => status r = 201%nat) rs ->
  balance id db = Some b0 ->
  let mine := List.filter (fun req => (req_user_id req =? id)%N) reqs in
  Checkins db' = Checkins db ++ map checkin_record reqs /\
  balance id db' = Some (b0 + 10 * Z.of_nat (length mine)) /\
  (exists es, RewardHistories db' = RewardHistories db ++ es /\
              Forall2 (entry_matches db) reqs es) /\
  (exists es, entries_of id db' = entries_of id db ++ es /\
              Forall2 (entry_matches db) mine es /\
              Forall (fun e => rh_amount e = 10) es) /\
  (b0 = 0 -> entries_of id db = [] ->
   balance id db' = Some (10 * Z.of_nat (length mine)) /\
   length (entries_of id db') = length mine /\
   Forall (fun e => rh_amount e = 10) (entries_of id db')).
Proof.
  intros Hrun Hall Hbal mine.
  assert (Checkins db' = Checkins db ++ map checkin_record reqs /\
    balance id db' = Some (b0 + 10 * Z.of_nat (length mine)) /\
    (exists es, RewardHistories db' = RewardHistories db ++ es /\
                Forall2 (entry_matches db) reqs es) /\
    (exists es, entries_of id db' = entries_of id db ++ es /\
                Forall2 (entry_matches db) mine es /\
                Forall (fun e => rh_amount e = 10) es)) as Hmain.
  { subst mine. revert db b0 rs Hrun Hall Hbal.
    induction reqs as [|req reqs IH]; intros db b0 rs Hrun Hall Hbal.
    - cbn in Hrun. injection Hrun as <- <-. cbn.
      rewrite app_nil_r, Z.add_0_r.
      repeat split; try assumption.
      + exists []. rewrite app_nil_r. split; [reflexivity | constructor].
      + exists []. rewrite app_nil_r. repeat split; constructor.
    - cbn [map run_ops run_op] in Hrun.
      destruct (checkin_post req db) as [db1 r1] eqn:Hpost.
      destruct (run_ops (map CheckinOp reqs) db1) as [db2 rs2] eqn:Hrest.
      injection Hrun as <- <-.
      apply Forall_cons in Hall as [Hr1 Hrs2].
      destruct (checkin_post_accepted_inv req db) as (place & u & Hplace & Hu & Heq).
      { rewrite Hpost. exact Hr1. }
      rewrite Hpost in Heq. injection Heq as -> ->.
      pose proof (balance_after_checkin req place u db id b0 Hu Hbal) as Hbal1.
      destruct (IH _ _ _ Hrest Hrs2 Hbal1)
        as (Hck & Hb & (es & Hes & Hmatch) & (es' & Hes' & Hmatch' & Hten)).
      cbn [Checkins RewardHistories Places after_checkin] in *.
      split; [|split; [|split]].
      + rewrite Hck, <- app_assoc. reflexivity.
      + rewrite Hb. cbn [List.filter].
        destruct (req_user_id req =? id)%N; cbn [length]; f_equal; lia.
      + exists (checkin_entry req place :: es). split.
        * rewrite Hes, <- app_assoc. reflexivity.
        * constructor; [exists place; split; [assumption|reflexivity] | assumption].
      + unfold entries_of in *. cbn [RewardHistories after_checkin] in Hes'.
        rewrite List.filter_app in Hes'. cbn [List.filter] in *.
        cbn [rh_userId checkin_entry] in Hes'.
        destruct (req_user_id req =? id)%N.
        * exists (checkin_entry req place :: es'). split; [|split].
          -- rewrite Hes', <- app_assoc. reflexivity.
          -- constructor; [exists place; split; [assumption|reflexivity] | assumption].
          -- constructor; [reflexivity | assumption].
        * exists es'. rewrite app_nil_r in Hes'. auto. }
  destruct Hmain as (Hck & Hb & Hall_es & (es & Hes & Hmatch & Hten)).
  split; [exact Hck|]. split; [exact Hb|]. split; [exact Hall_es|].
  split; [exists es; auto|].
  intros -> Hnone. rewrite Hb, Hes, Hnone. cbn [app].
  split; [f_equal; lia|]. split; [|exact Hten].
  symmetry. eapply Forall2_length. exact Hmatch.
Qed.
End CheckinLedger.

(** The theorem for user 8 and two check-ins on consecutive days. *)
Lemma accepted_checkins_award_10_each_witness :
  let db' := fst (@run_ops utc series_math (map CheckinOp sample_two_checkins)
                    sample_db) in
  balance 8 db' = Some (10 * 2) /\
  length (entries_of 8 db') = 2%nat /\
  Forall (fun e => rh_amount e = 10) (entries_of 8 db').
Proof.
  refine (proj2 (proj2 (proj2 (proj2
    (@accepted_checkins_award_10_each utc series_math sample_two_checkins
       sample_db
       (fst (@run_ops utc series_math (map CheckinOp sample_two_checkins) sample_db))
       (snd (@run_ops utc series_math (map CheckinOp sample_two_checkins) sample_db))
       8%N 0 _ _ _)))) eq_refl _).
  - vm_compute. reflexivity.
  - vm_compute. repeat constructor.
  - vm_compute. reflexivity.
  - vm_compute. reflexivity.
Defined.




Section PlaceRedemption.
Context `{LocalCalendar} `{JSMath}.


End PlaceRedemption.




(** ** Repeated reward redemption *)





(** The first example of the specification: 50 points, a 30-point reward;
    the redemption succeeds and leaves 20 with a ledger entry of -30; the
    second attempt is refused for insufficient points. *)
Example redeem_50_then_20 :
  let req := sample_redeem 7 1699999999000 in
  let out1 := reward_redeem req sample_db in
  let out2 := reward_redeem req (fst out1) in
  status (snd out1) = 200%nat /\
  balance 7 (fst out1) = Some 20 /\
  map rh_amount (entries_of 7 (fst out1)) = [-30] /\
  snd out2 =
    failure 400 (Text "Insufficient points. You need 30 points but have 20") /\
  fst out2 = fst out1.
Proof. repeat split; vm_compute; reflexivity. Qed.

(** ** Redemptions in flight *)








Example serial_redemptions_sample :
  let st := run_schedule [0; 0; 0; 0; 1; 1; 1; 1]%nat (sample_db, sample_pool) in
  (status <$> response_of 0 st) = Some 200%nat /\
  (status <$> response_of 1 st) = Some 400%nat /\
  balance 7 (fst st) = Some 20 /\
  map rh_amount (entries_of 7 (fst st)) = [-30].
Proof. repeat split; vm_compute; reflexivity. Qed.


Lemma extends_refl (db : DB) : extends db db.
Proof.
  repeat split; try tauto.
  - exists []. symmetry. apply app_nil_r.
  - exists []. symmetry. apply app_nil_r.
  - intros id u u' Hu Hu'. exists []. rewrite app_nil_r. congruence.
Qed.

Lemma extends_trans (db1 db2 db3 : DB) :
  extends db1 db2 -> extends db2 db3 -> extends db1 db3.
Proof.
  intros (HP1 & HR1 & HU1 & [cs1 HC1] & [es1 HE1] & Hr1)
         (HP2 & HR2 & HU2 & [cs2 HC2] & [es2 HE2] & Hr2).
  repeat split.
  - congruence.
  - congruence.
  - intros H. apply HU1, HU2, H.
  - intros H. apply HU2, HU1, H.
  - exists (cs1 ++ cs2). rewrite HC2, HC1, app_assoc. reflexivity.
  - exists (es1 ++ es2). rewrite HE2, HE1, app_assoc. reflexivity.
  - intros id u u'' Hu Hu''.
    destruct (proj2 (HU1 id) (ex_intro _ u Hu)) as [u' Hu'].
    destruct (Hr1 id u u' Hu Hu') as [rs1 Hrs1].
    destruct (Hr2 id u' u'' Hu' Hu'') as [rs2 Hrs2].
    exists (rs1 ++ rs2). rewrite Hrs2, Hrs1, app_assoc. reflexivity.
Qed.

(** Replacing the document of a stored user by one whose redemption
    history extends the old one, and appending to the logs. *)
Lemma extends_update (db db' : DB) (id : ObjectId) (u u' : User)
    (rs : list RedeemedReward) :
  Users db !! id = Some u ->
  user_rewards u' = user_rewards u ++ rs ->
  Places db' = Places db ->
  Rewards db' = Rewards db ->
  Users db' = <[id := u']> (Users db) ->
  (exists cs, Checkins db' = Checkins db ++ cs) ->
  (exists es, RewardHistories db' = RewardHistories db ++ es) ->
  extends db db'.
Proof.
  intros Hu Hrs HP HR HU HC HE. repeat split; try assumption.
  - rewrite HU. intros H. destruct (decide (id0 = id)) as [-> | Hne]; [eauto|].
    rewrite lookup_insert_ne in H by congruence. exact H.
  - rewrite HU. intros H. destruct (decide (id0 = id)) as [-> | Hne].
    + rewrite lookup_insert_eq. eauto.
    + rewrite lookup_insert_ne by congruence. exact H.
  - intros id0 v v' Hv Hv'. rewrite HU in Hv'.
    destruct (decide (id0 = id)) as [-> | Hne].
    + rewrite lookup_insert_eq in Hv'. exists rs. congruence.
    + rewrite lookup_insert_ne in Hv' by congruence.
      exists []. rewrite app_nil_r. congruence.
Qed.

Lemma extends_logs (db db' : DB) :
  Places db' = Places db ->
  Rewards db' = Rewards db ->
  Users db' = Users db ->
  (exists cs, Checkins db' = Checkins db ++ cs) ->
  (exists es, RewardHistories db' = RewardHistories db ++ es) ->
  extends db db'.
Proof.
  intros HP HR HU HC HE. repeat split; try assumption.
  - rewrite HU. tauto.
  - rewrite HU. tauto.
  - intros id u u' Hu Hu'. rewrite HU in Hu'. exists [].
    rewrite app_nil_r. congruence.
Qed.

Ltac nothing_appended := exists []; symmetry; apply app_nil_r.

Section Extends.
Context `{LocalCalendar} `{JSMath}.

Lemma checkin_post_extends (req : CheckinRequest) (db : DB) :
  extends db (fst (checkin_post req db)).
Proof.
  rewrite checkin_post_run.
  destruct (Places db !! req_placeId req) as [place|]; [|apply extends_refl].
  rewrite checkin_at_distance_run.
  destruct (20 <? _)%float; [apply extends_refl|].
  destruct (_ <? 10)%float; [apply extends_refl|].
  destruct (List.find _ _); [apply extends_refl|].
  assert (extends db (with_checkin req db)) as Horphan.
  { apply extends_logs; try reflexivity; [eexists; reflexivity | nothing_appended]. }
  destruct (Users db !! req_user_id req) as [u|] eqn:Hu; [|exact Horphan].
  destruct (0 <=? _); [|exact Horphan].
  apply (extends_update _ _ (req_user_id req) u (credited 10 u) []);
    try reflexivity; try assumption.
  - cbn. symmetry. apply app_nil_r.
  - eexists; reflexivity.
  - eexists; reflexivity.
Qed.

Lemma reward_redeem_extends (req : RedeemRequest) (db : DB) :
  extends db (fst (reward_redeem req db)).
Proof.
  rewrite reward_redeem_run.
  destruct (Rewards db !! redeem_id req) as [reward|]; [|apply extends_refl].
  destruct (negb _); [apply extends_refl|].
  destruct (reward_expired _ _); [apply extends_refl|].
  destruct (Users db !! redeem_user_id req) as [u|] eqn:Hu; [|apply extends_refl].
  destruct (_ <? _); [apply extends_refl|].
  destruct (0 <=? _); [|apply extends_refl].
  apply (extends_update _ _ (redeem_user_id req) u (debited req reward u)
           [redeem_snapshot req reward]); try reflexivity; try assumption.
  - nothing_appended.
  - eexists; reflexivity.
Qed.

Lemma place_redeem_extends (req : PlaceRedeemRequest) (db : DB) :
  extends db (fst (place_redeem req db)).
Proof.
  rewrite place_redeem_run.
  destruct (Places db !! predeem_id req) as [place|]; [|apply extends_refl].
  destruct (place_award place) as [n|]; [|apply extends_refl].
  destruct (Users db !! predeem_user_id req) as [u|] eqn:Hu; [|apply extends_refl].
  destruct (_ || _); [|apply extends_refl].
  cbn [fst]. unfold after_place_redeem. destruct (n =? 0).
  - apply extends_logs; try reflexivity; [nothing_appended | eexists; reflexivity].
  - apply (extends_update _ _ (predeem_user_id req) u (credited n u) []);
      try reflexivity; try assumption.
    + cbn. symmetry. apply app_nil_r.
    + nothing_appended.
    + eexists; reflexivity.
Qed.

Lemma run_op_extends (op : Operation) (db : DB) :
  extends db (fst (run_op op db)).
Proof.
  destruct op; cbn [run_op].
  - apply checkin_post_extends.
  - apply reward_redeem_extends.
  - apply place_redeem_extends.
Qed.

(** X1.  Check-ins, reward redemptions and place redemptions only
    append.  After any sequence of them the places and the rewards are
    as before, the same users are stored, and the check-ins, the ledger
    and the redemption history of every user are the earlier lists with
    new entries at the end. *)
Theorem requests_only_append (ops : list Operation) (db : DB) :
  let db' := fst (run_ops ops db) in
  Places db' = Places db /\
  Rewards db' = Rewards db /\
  (forall id, is_Some (Users db' !! id) <-> is_Some (Users db !! id)) /\
  (exists cs, Checkins db' = Checkins db ++ cs) /\
  (exists es, RewardHistories db' = RewardHistories db ++ es) /\
  (forall id u u', Users db !! id = Some u -> Users db' !! id = Some u' ->
     exists rs, user_rewards u' = user_rewards u ++ rs).
Proof.
  cbn zeta. change (extends db (fst (run_ops ops db))).
  revert db. induction ops as [|op ops IH]; intros db; [apply extends_refl|].
  rewrite run_ops_cons.
  eapply extends_trans; [apply run_op_extends | apply IH].
Qed.
End Extends.

Lemma utc_laws : @CalendarLaws utc.
Proof.
  constructor. intros t. cbn [setHours_0 setDate_next utc].
  pose proof (Z.mod_pos_bound t 86400000 eq_refl). lia.
Qed.

Section OnePerDay.
Context `{LocalCalendar} `{JSMath} `{!CalendarLaws}.

(** A stored check-in of the same visit as the one a request would create
    is found by the same-day query of that request. *)
Lemma same_day_query_finds (req : CheckinRequest) (c : Checkin) (l : list Checkin) :
  In c l ->
  checkin_userId c = req_user_id req ->
  checkin_placeId c = req_placeId req ->
  setHours_0 (checkin_timestamp c) = setHours_0 (checkin_now_today req) ->
  List.find
    (same_day_query (req_user_id req) (req_placeId req)
       (setHours_0 (checkin_now_today req))
       (setDate_next (setHours_0 (checkin_now_today req)))) l <> None.
Proof.
  intros Hin Hu Hp Hday Hnone.
  apply (find_none _ _ Hnone) in Hin. unfold same_day_query in Hin.
  rewrite Hu, Hp, !N.eqb_refl in Hin. cbn [andb] in Hin.
  pose proof (day_contains (checkin_timestamp c)) as Hc. rewrite Hday in Hc.
  apply andb_false_iff in Hin as [Hin | Hin];
    [apply Z.leb_gt in Hin | apply Z.ltb_ge in Hin]; lia.
Qed.

Lemma one_per_day_snoc (db : DB) (req : CheckinRequest) (l : list Checkin) :
  l = Checkins db ++ [checkin_record req] ->
  setHours_0 (checkin_now_created req) = setHours_0 (checkin_now_today req) ->
  List.find
    (same_day_query (req_user_id req) (req_placeId req)
       (setHours_0 (checkin_now_today req))
       (setDate_next (setHours_0 (checkin_now_today req)))) (Checkins db) = None ->
  one_per_day db ->
  forall i j c1 c2, l !! i = Some c1 -> l !! j = Some c2 ->
    same_visit c1 c2 -> i = j.
Proof.
  intros -> Hday Hfind Hinv i j c1 c2 Hc1 Hc2 Hsame.
  assert (forall k c, Checkins db !! k = Some c ->
            same_visit c (checkin_record req) -> False) as Hclash.
  { intros k c Hk (Hu & Hp & Hd).
    apply (same_day_query_finds req c (Checkins db)); try assumption.
    - apply list_elem_of_In, list_elem_of_lookup. eauto.
    - rewrite Hd. exact Hday. }
  apply lookup_app_Some in Hc1 as [Hc1 | [Hi Hc1]];
  apply lookup_app_Some in Hc2 as [Hc2 | [Hj Hc2]].
  - eapply Hinv; eassumption.
  - apply list_lookup_singleton_Some in Hc2 as [_ <-].
    exfalso. eapply Hclash; eassumption.
  - apply list_lookup_singleton_Some in Hc1 as [_ <-].
    exfalso. apply (Hclash j c2 Hc2).
    destruct Hsame as (Hu & Hp & Hd). repeat split; congruence.
  - apply list_lookup_singleton_Some in Hc1 as [Hi' _].
    apply list_lookup_singleton_Some in Hc2 as [Hj' _]. lia.
Qed.

Lemma checkin_post_one_per_day (req : CheckinRequest) (db : DB) :
  setHours_0 (checkin_now_created req) = setHours_0 (checkin_now_today req) ->
  one_per_day db -> one_per_day (fst (checkin_post req db)).
Proof.
  intros Hday Hinv. rewrite checkin_post_run.
  destruct (Places db !! req_placeId req) as [place|]; [|exact Hinv].
  rewrite checkin_at_distance_run.
  destruct (20 <? _)%float; [exact Hinv|].
  destruct (_ <? 10)%float; [exact Hinv|].
  destruct (List.find _ _) eqn:Hfind; [exact Hinv|].
  destruct (Users db !! req_user_id req) as [u|];
    [destruct (0 <=? _)|];
    cbn [fst]; unfold one_per_day;
    eapply one_per_day_snoc; eauto.
Qed.

(** X2.  If the stored check-ins hold at most one check-in per user,
    place and local day, they still do after any sequence of check-ins
    and redemptions, provided each check-in request creates its record
    on the local day on which it started and an instant lies between the
    local midnight before it and the next one. *)
Theorem one_checkin_per_user_place_day (ops : list Operation) (db : DB) :
  Forall within_one_day ops ->
  one_per_day db ->
  one_per_day (fst (run_ops ops db)).
Proof.
  intros Hops. revert db.
  induction Hops as [|op ops Hop _ IH]; intros db Hinv; [exact Hinv|].
  rewrite run_ops_cons. apply IH.
  destruct op as [req | req | req]; cbn [run_op].
  - apply checkin_post_one_per_day; assumption.
  - rewrite reward_redeem_run.
    destruct (Rewards db !! _); [|exact Hinv].
    destruct (negb _); [exact Hinv|].
    destruct (reward_expired _ _); [exact Hinv|].
    destruct (Users db !! _); [|exact Hinv].
    destruct (_ <? _); [exact Hinv|].
    destruct (0 <=? _); exact Hinv.
  - rewrite place_redeem_run.
    destruct (Places db !! _); [|exact Hinv].
    destruct (place_award _); [|exact Hinv].
    destruct (Users db !! _); [|exact Hinv].
    destruct (_ || _); exact Hinv.
Qed.

(** X3.  After a check-in answered 201, a check-in of the same user at
    the same place that starts on the local day on which the first
    record was created writes nothing and is answered 409 or 400; with
    the same coordinates it is answered 409. *)
Theorem accepted_checkin_blocks_retry (req retry : CheckinRequest) (db : DB) :
  status (snd (checkin_post req db)) = 201%nat ->
  setHours_0 (checkin_now_created req) = setHours_0 (checkin_now_today retry) ->
  req_user_id retry = req_user_id req ->
  req_placeId retry = req_placeId req ->
  let db' := fst (checkin_post req db) in
  fst (checkin_post retry db') = db' /\
  (status (snd (checkin_post retry db')) = 409%nat \/
   status (snd (checkin_post retry db')) = 400%nat) /\
  (req_coordinates retry = req_coordinates req ->
   status (snd (checkin_post retry db')) = 409%nat).
Proof.
  intros Hok Hday Hu Hp db'.
  destruct (checkin_post_accepted_inv req db Hok) as (place & u & Hplace & _ & Heq).
  assert (passes_distance_guards (request_distance req place) = true) as Hband.
  { revert Hok. rewrite checkin_post_run, Hplace, checkin_at_distance_run.
    unfold passes_distance_guards.
    destruct (20 <? _)%float; [discriminate|].
    destruct (_ <? 10)%float; [discriminate|]. reflexivity. }
  subst db'. rewrite Heq. cbn [fst].
  rewrite checkin_post_run. cbn [Places after_checkin].
  rewrite Hp, Hplace, checkin_at_distance_run.
  destruct (List.find _ (Checkins (after_checkin req place u db))) eqn:Hfind.
  2:{ exfalso. revert Hfind.
      apply (same_day_query_finds retry (checkin_record req)); try assumption.
      - cbn [Checkins after_checkin]. apply in_or_app. right. left. reflexivity.
      - cbn. congruence.
      - cbn. congruence.  }
  split; [|split].
  - destruct (20 <? _)%float; [reflexivity|].
    destruct (_ <? 10)%float; reflexivity.
  - destruct (20 <? _)%float; [right; reflexivity|].
    destruct (_ <? 10)%float; [right|left]; reflexivity.
  - intros Hcoord.
    assert (request_distance retry place = request_distance req place) as ->.
    { unfold request_distance. rewrite Hcoord. reflexivity. }
    unfold passes_distance_guards in Hband.
    destruct (20 <? _)%float; [discriminate|].
    destruct (_ <? 10)%float; [discriminate|]. reflexivity.
Qed.
End OnePerDay.

Lemma one_per_day_sample : @one_per_day utc sample_db.
Proof. intros i j c1 c2 Hc1. cbn in Hc1. discriminate. Qed.

Lemma one_checkin_per_user_place_day_witness :
  @one_per_day utc sample_db /\
  @one_per_day utc (fst (@run_ops utc series_math sample_ops sample_db)).
Proof.
  split; [exact one_per_day_sample|].
  refine (@one_checkin_per_user_place_day utc series_math utc_laws
            sample_ops sample_db _ one_per_day_sample).
  repeat constructor.
Defined.

Lemma accepted_checkin_blocks_retry_witness :
  let db' := fst (@checkin_post utc series_math (sample_checkin 7 1700000000000)
                    sample_db) in
  fst (@checkin_post utc series_math (sample_checkin 7 1700000001000) db') = db' /\
  status (snd (@checkin_post utc series_math (sample_checkin 7 1700000001000) db'))
    = 409%nat.
Proof.
  refine (let H := @accepted_checkin_blocks_retry utc series_math utc_laws
            (sample_checkin 7 1700000000000) (sample_checkin 7 1700000001000)
            sample_db _ _ _ _ in conj (proj1 H) (proj2 (proj2 H) eq_refl)).
  - vm_compute. reflexivity.
  - vm_compute. reflexivity.
  - reflexivity.
  - reflexivity.
Defined.

Section Failures.
Context `{LocalCalendar} `{JSMath}.


(** X5.  A sequence of check-ins and redemptions sent by other users
    leaves a user's document, ledger entries and check-ins exactly as
    they were. *)
Theorem other_users_untouched (ops : list Operation) (db : DB) (id : ObjectId) :
  Forall (fun op => op_user op <> id) ops ->
  let db' := fst (run_ops ops db) in
  Users db' !! id = Users db !! id /\
  entries_of id db' = entries_of id db /\
  List.filter (fun c => (checkin_userId c =? id)%N) (Checkins db') =
  List.filter (fun c => (checkin_userId c =? id)%N) (Checkins db).
Proof.
  intros Hops. cbn zeta. revert db.
  induction Hops as [|op ops Hop _ IH]; intros db; [repeat split|].
  rewrite run_ops_cons.
  destruct (IH (fst (run_op op db))) as (-> & -> & ->). clear IH.
  assert (forall (e : RewardHistory) l, rh_userId e <> id ->
            List.filter (fun e => (rh_userId e =? id)%N) (l ++ [e]) =
            List.filter (fun e => (rh_userId e =? id)%N) l) as Hentry.
  { intros e l Hne. rewrite List.filter_app. cbn.
    apply N.eqb_neq in Hne. rewrite Hne. apply app_nil_r. }
  assert (forall (c : Checkin) l, checkin_userId c <> id ->
            List.filter (fun c => (checkin_userId c =? id)%N) (l ++ [c]) =
            List.filter (fun c => (checkin_userId c =? id)%N) l) as Hrecord.
  { intros c l Hne. rewrite List.filter_app. cbn.
    apply N.eqb_neq in Hne. rewrite Hne. apply app_nil_r. }
  unfold entries_of.
  destruct op as [req | req | req]; cbn [run_op op_user] in *.
  - rewrite checkin_post_run.
    destruct (Places db !! req_placeId req) as [place|]; [|repeat split].
    rewrite checkin_at_distance_run.
    destruct (20 <? _)%float; [repeat split|].
    destruct (_ <? 10)%float; [repeat split|].
    destruct (List.find _ _); [repeat split|].
    destruct (Users db !! req_user_id req) as [u|];
      [destruct (0 <=? _)|];
      cbn [fst Users Checkins RewardHistories after_checkin with_checkin];
      rewrite ?lookup_insert_ne, ?Hentry, ?Hrecord by assumption;
      repeat split.
  - rewrite reward_redeem_run.
    destruct (Rewards db !! _); [|repeat split].
    destruct (negb _); [repeat split|].
    destruct (reward_expired _ _); [repeat split|].
    destruct (Users db !! _); [|repeat split].
    destruct (_ <? _); [repeat split|].
    destruct (0 <=? _); [|repeat split].
    cbn [fst Users Checkins RewardHistories after_redeem].
    rewrite lookup_insert_ne, Hentry by assumption. repeat split.
  - rewrite place_redeem_run.
    destruct (Places db !! _); [|repeat split].
    destruct (place_award _) as [n|]; [|repeat split].
    destruct (Users db !! _); [|repeat split].
    destruct (_ || _); [|repeat split].
    cbn [fst Users Checkins RewardHistories after_place_redeem].
    rewrite Hentry by assumption.
    destruct (n =? 0); rewrite ?lookup_insert_ne by assumption; repeat split.
Qed.
End Failures.

Lemma prefix_append (s t : string) : String.prefix s (s +:+ t) = true.
Proof.
  induction s as [|a s IH]; [destruct t; reflexivity|].
  change (String.prefix (String a s) (String a (s +:+ t)) = true).
  cbn [String.prefix]. destruct (Ascii.ascii_dec a a); [exact IH | congruence].
Qed.

Lemma snapshots_cost_app (u : User) (t : Z) (snaps : list RedeemedReward) :
  snapshots_cost {| rewardPoints_total := t; user_rewards := user_rewards u ++ snaps |} =
  snapshots_cost u + fold_right (fun r acc => rr_pointsCost r + acc) 0 snaps.
Proof.
  unfold snapshots_cost. cbn [user_rewards].
  induction (user_rewards u) as [|r l IH]; cbn; [reflexivity|]. lia.
Qed.

Lemma redemptions_reconciled_same (id : ObjectId) (db db' : DB) :
  Users db' = Users db -> RewardHistories db' = RewardHistories db ->
  redemptions_reconciled id db -> redemptions_reconciled id db'.
Proof.
  intros HU HL Hinv u Hu. unfold ledger_spent, entries_of. rewrite HL.
  rewrite HU in Hu. apply Hinv, Hu.
Qed.

(** One balance change with its ledger entry keeps the agreement when a
    redemption entry comes with exactly one snapshot of the same cost and
    any other entry with none. *)
Lemma redemptions_reconciled_step (id uid : ObjectId) (db db' : DB)
    (u u' : User) (e : RewardHistory) (snaps : list RedeemedReward) :
  Users db !! uid = Some u ->
  Users db' !! uid = Some u' ->
  (forall i, i <> uid -> Users db' !! i = Users db !! i) ->
  user_rewards u' = user_rewards u ++ snaps ->
  RewardHistories db' = RewardHistories db ++ [e] ->
  rh_userId e = uid ->
  (if is_redemption_entry e
   then exists s, snaps = [s] /\ rr_pointsCost s = - rh_amount e
   else snaps = []) ->
  redemptions_reconciled id db -> redemptions_reconciled id db'.
Proof.
  intros Hu Hu' Hother Hsnaps HL He Hkind Hinv v Hv.
  unfold ledger_spent, entries_of in *. rewrite HL, !List.filter_app.
  cbn [List.filter]. rewrite He.
  destruct (N.eqb_spec uid id) as [-> | Hne].
  - rewrite Hu' in Hv. injection Hv as <-.
    destruct (Hinv u Hu) as [Hcost Hlen].
    unfold ledger_spent, entries_of in Hcost, Hlen.
    assert (snapshots_cost u' =
            snapshots_cost u + fold_right (fun r acc => rr_pointsCost r + acc) 0 snaps)
      as Hcost'.
    { rewrite <- (snapshots_cost_app u (rewardPoints_total u') snaps).
      unfold snapshots_cost. cbn [user_rewards]. rewrite Hsnaps. reflexivity. }
    rewrite Hcost', Hsnaps, !length_app, sum_amounts_app.
    cbn [List.filter].
    destruct (is_redemption_entry e).
    + destruct Hkind as (s & -> & Hs). cbn. split; lia.
    + subst snaps. cbn. rewrite ?app_nil_r, ?Nat.add_0_r. split; lia.
  - cbn [List.filter app]. rewrite !app_nil_r.
    rewrite (Hother id) in Hv by congruence. apply Hinv, Hv.
Qed.

Section Redemptions.
Context `{LocalCalendar} `{JSMath}.

Lemma run_ops_extends (ops : list Operation) (db : DB) :
  extends db (fst (run_ops ops db)).
Proof.
  revert db. induction ops as [|op ops IH]; intros db; [apply extends_refl|].
  rewrite run_ops_cons.
  eapply extends_trans; [apply run_op_extends | apply IH].
Qed.

Lemma run_op_redemptions_reconciled (op : Operation) (db : DB) (id : ObjectId) :
  redemptions_reconciled id db -> redemptions_reconciled id (fst (run_op op db)).
Proof.
  intros Hinv. destruct op as [req | req | req]; cbn [run_op].
  - rewrite checkin_post_run.
    destruct (Places db !! req_placeId req) as [place|]; [|exact Hinv].
    rewrite checkin_at_distance_run.
    destruct (20 <? _)%float; [exact Hinv|].
    destruct (_ <? 10)%float; [exact Hinv|].
    destruct (List.find _ _); [exact Hinv|].
    destruct (Users db !! req_user_id req) as [u|] eqn:Hu;
      [destruct (0 <=? _)|];
      try (apply (redemptions_reconciled_same id db); [reflexivity | reflexivity | exact Hinv]).
    apply (redemptions_reconciled_step id (req_user_id req) db _ u (credited 10 u)
             (checkin_entry req place) []); try reflexivity; try assumption.
    + apply lookup_insert_eq.
    + intros i Hi. apply lookup_insert_ne. congruence.
    + cbn. symmetry. apply app_nil_r.
  - rewrite reward_redeem_run.
    destruct (Rewards db !! _) as [reward|]; [|exact Hinv].
    destruct (negb _); [exact Hinv|].
    destruct (reward_expired _ _); [exact Hinv|].
    destruct (Users db !! _) as [u|] eqn:Hu; [|exact Hinv].
    destruct (_ <? _); [exact Hinv|].
    destruct (0 <=? _); [|exact Hinv].
    apply (redemptions_reconciled_step id (redeem_user_id req) db _ u
             (debited req reward u) (redeem_entry req reward)
             [redeem_snapshot req reward]); try reflexivity; try assumption.
    + apply lookup_insert_eq.
    + intros i Hi. apply lookup_insert_ne. congruence.
    + assert (is_redemption_entry (redeem_entry req reward) = true) as ->.
      { apply prefix_append. }
      eexists. split; [reflexivity|]. cbn. lia.
  - rewrite place_redeem_run.
    destruct (Places db !! _) as [place|]; [|exact Hinv].
    destruct (place_award _) as [n|]; [|exact Hinv].
    destruct (Users db !! _) as [u|] eqn:Hu; [|exact Hinv].
    destruct (_ || _); [|exact Hinv].
    cbn [fst].
    apply (redemptions_reconciled_step id (predeem_user_id req) db _ u
             (if n =? 0 then u else credited n u)
             (place_entry req place n) []); try reflexivity; try assumption.
    + cbn [Users after_place_redeem]. destruct (n =? 0); [assumption|].
      apply lookup_insert_eq.
    + intros i Hi. cbn [Users after_place_redeem]. destruct (n =? 0); [reflexivity|].
      apply lookup_insert_ne. congruence.
    + destruct (n =? 0); cbn; symmetry; apply app_nil_r.
Qed.

(** X6.  For a user who starts with no redemption history and no ledger
    entries, after any sequence of requests the snapshots in
    user.rewards and the ledger entries whose reason starts with
    'Redeemed reward: ' are equal in number and add up to the same
    number of points. *)
Theorem snapshots_match_ledger_debits (ops : list Operation) (db : DB)
    (id : ObjectId) (u0 : User) :
  Users db !! id = Some u0 ->
  user_rewards u0 = [] ->
  entries_of id db = [] ->
  exists u,
    Users (fst (run_ops ops db)) !! id = Some u /\
    snapshots_cost u = ledger_spent id (fst (run_ops ops db)) /\
    length (user_rewards u) =
      length (List.filter is_redemption_entry
                (entries_of id (fst (run_ops ops db)))).
Proof.
  intros Hu0 Hnone Hentries.
  assert (redemptions_reconciled id (fst (run_ops ops db))) as Hinv.
  { assert (redemptions_reconciled id db) as Hstart.
    { intros v Hv. assert (v = u0) as -> by congruence.
      unfold snapshots_cost, ledger_spent. rewrite Hnone, Hentries. split; reflexivity. }
    clear Hu0 Hnone Hentries. revert db Hstart.
    induction ops as [|op ops IH]; intros db Hstart; [exact Hstart|].
    rewrite run_ops_cons. apply IH, run_op_redemptions_reconciled, Hstart. }
  destruct (run_ops_extends ops db) as (_ & _ & Hdom & _).
  destruct (proj2 (Hdom id) (ex_intro _ u0 Hu0)) as [u Hu].
  exists u. split; [exact Hu|]. apply Hinv, Hu.
Qed.
End Redemptions.

Lemma other_users_untouched_witness :
  let db' := fst (@run_ops utc series_math sample_ops sample_db) in
  Users db' !! 7%N = Users sample_db !! 7%N /\
  entries_of 7 db' = entries_of 7 sample_db /\
  List.filter (fun c => (checkin_userId c =? 7)%N) (Checkins db') =
  List.filter (fun c => (checkin_userId c =? 7)%N) (Checkins sample_db).
Proof.
  refine (@other_users_untouched utc series_math sample_ops sample_db 7%N _).
  repeat constructor; discriminate.
Defined.

Lemma snapshots_match_ledger_debits_witness :
  exists u,
    Users (fst (@run_ops utc series_math sample_ops sample_db)) !! 8%N = Some u /\
    snapshots_cost u =
      ledger_spent 8 (fst (@run_ops utc series_math sample_ops sample_db)) /\
    length (user_rewards u) =
      length (List.filter is_redemption_entry
                (entries_of 8 (fst (@run_ops utc series_math sample_ops sample_db)))).
Proof.
  refine (@snapshots_match_ledger_debits utc series_math sample_ops sample_db 8%N
            {| rewardPoints_total := 0; user_rewards := [] |} _ _ _).
  - vm_compute. reflexivity.
  - reflexivity.
  - vm_compute. reflexivity.
Defined.

Example sample_ops_spent :
  ledger_spent 8 (fst (@run_ops utc series_math sample_ops sample_db)) = 30.
Proof. vm_compute. reflexivity. Qed.

(** ** Coordinates and numbers in the middleware *)

Lemma eqb_0_zero (x : float) :
  (x =? 0)%float = true -> exists s, Prim2SF x = S754_zero s.
Proof.
  rewrite FloatAxioms.eqb_spec. unfold SFeqb.
  change (Prim2SF 0) with (S754_zero false).
  destruct (Prim2SF x) as [s | s | | s m e]; cbn; try discriminate; eauto.
  all: destruct s; discriminate.
Qed.

Lemma is_nan_Prim2SF (x : float) :
  is_nan x = true <-> Prim2SF x = S754_nan.
Proof.
  unfold is_nan. rewrite FloatAxioms.eqb_spec. unfold SFeqb.
  destruct (Prim2SF x) as [s | s | | s m e]; cbn.
  - split; discriminate.
  - destruct s; split; discriminate.
  - split; reflexivity.
  - rewrite Z.compare_refl, Pos.compare_cont_refl. destruct s; split; discriminate.
Qed.

(** Order tests do not see the sign of zero, so they do not see
    [parseFloat]. *)
Lemma leb_parseFloat_r (c x : float) :
  (c <=? parseFloat x)%float = (c <=? x)%float.
Proof.
  unfold parseFloat. destruct (x =? 0)%float eqn:Hz; [|reflexivity].
  destruct (eqb_0_zero x Hz) as [s Hs].
  rewrite !FloatAxioms.leb_spec, Hs. change (Prim2SF 0) with (S754_zero false).
  unfold SFleb. destruct (Prim2SF c) as [sc | sc | | sc mc ec]; reflexivity.
Qed.

Lemma leb_parseFloat_l (c x : float) :
  (parseFloat x <=? c)%float = (x <=? c)%float.
Proof.
  unfold parseFloat. destruct (x =? 0)%float eqn:Hz; [|reflexivity].
  destruct (eqb_0_zero x Hz) as [s Hs].
  rewrite !FloatAxioms.leb_spec, Hs. change (Prim2SF 0) with (S754_zero false).
  unfold SFleb. destruct (Prim2SF c) as [sc | sc | | sc mc ec]; reflexivity.
Qed.

Lemma is_nan_parseFloat (x : float) : is_nan (parseFloat x) = is_nan x.
Proof.
  unfold parseFloat. destruct (x =? 0)%float eqn:Hz; [|reflexivity].
  destruct (is_nan x) eqn:Hn; [|reflexivity].
  apply is_nan_Prim2SF in Hn. destruct (eqb_0_zero x Hz) as [s Hs]. congruence.
Qed.

Lemma leb_nan_r (c x : float) : is_nan x = true -> (c <=? x)%float = false.
Proof.
  intros Hn. apply is_nan_Prim2SF in Hn.
  rewrite FloatAxioms.leb_spec, Hn. unfold SFleb.
  destruct (Prim2SF c) as [sc | sc | | sc mc ec]; reflexivity.
Qed.

Lemma validateCoordinates_parsed (lat lng : float) :
  validateCoordinates lat lng =
  (negb (is_nan lat) && negb (is_nan lng) &&
   (-90 <=? lat) && (lat <=? 90) && (-180 <=? lng) && (lng <=? 180))%float.
Proof.
  unfold validateCoordinates. cbn zeta.
  rewrite !is_nan_parseFloat, !leb_parseFloat_r, !leb_parseFloat_l.
  reflexivity.
Qed.

(** X7.  On Numbers, validateCoordinates(lat, lng) of the route
    middleware accepts exactly the pairs that the validator of
    placeSchema.location.coordinates accepts as [lng, lat]; NaN and the
    sign of zero included. *)
Theorem validateCoordinates_agrees_with_schema (lat lng : float) :
  validateCoordinates lat lng = coordinates_validator [lng; lat].
Proof.
  rewrite validateCoordinates_parsed. unfold coordinates_validator.
  destruct (is_nan lat) eqn:Hlat.
  - rewrite (leb_nan_r _ lat Hlat). cbn.
    destruct (-180 <=? lng)%float, (lng <=? 180)%float; reflexivity.
  - destruct (is_nan lng) eqn:Hlng.
    + rewrite (leb_nan_r _ lng Hlng). reflexivity.
    + cbn.
      destruct (-90 <=? lat)%float, (lat <=? 90)%float,
               (-180 <=? lng)%float, (lng <=? 180)%float; reflexivity.
Qed.

Lemma or_0_not_nan (x : float) : is_nan (or_0 x) = false.
Proof.
  unfold or_0. destruct (is_nan x) eqn:Hn; cbn; [reflexivity|].
  destruct (x =? 0)%float; [reflexivity | exact Hn].
Qed.

Lemma or_0_parseFloat_idem (x : float) :
  or_0 (parseFloat (or_0 (parseFloat x))) = or_0 (parseFloat x).
Proof.
  unfold parseFloat at 2 3. destruct (x =? 0)%float eqn:Hz.
  - reflexivity.
  - unfold or_0 at 2 3. rewrite Hz.
    destruct (is_nan x) eqn:Hn; cbn [orb]; [reflexivity|].
    unfold parseFloat. rewrite Hz. unfold or_0. rewrite Hn, Hz. reflexivity.
Qed.

Lemma leb_or_0_r (c x : float) :
  is_nan x = false -> (c <=? or_0 (parseFloat x))%float = (c <=? x)%float.
Proof.
  intros Hn. unfold or_0. rewrite is_nan_parseFloat, Hn. cbn [orb].
  destruct (parseFloat x =? 0)%float eqn:Hz.
  - rewrite <- (leb_parseFloat_r c x).
    destruct (eqb_0_zero _ Hz) as [s Hs].
    rewrite !FloatAxioms.leb_spec, Hs. change (Prim2SF 0) with (S754_zero false).
    unfold SFleb. destruct (Prim2SF c) as [sc | sc | | sc mc ec]; reflexivity.
  - apply leb_parseFloat_r.
Qed.

Lemma leb_or_0_l (c x : float) :
  is_nan x = false -> (or_0 (parseFloat x) <=? c)%float = (x <=? c)%float.
Proof.
  intros Hn. unfold or_0. rewrite is_nan_parseFloat, Hn. cbn [orb].
  destruct (parseFloat x =? 0)%float eqn:Hz.
  - rewrite <- (leb_parseFloat_l c x).
    destruct (eqb_0_zero _ Hz) as [s Hs].
    rewrite !FloatAxioms.leb_spec, Hs. change (Prim2SF 0) with (S754_zero false).
    unfold SFleb. destruct (Prim2SF c) as [sc | sc | | sc mc ec]; reflexivity.
  - apply leb_parseFloat_l.
Qed.

(** X8.  On a pair of Numbers sanitizeCoordinates is idempotent, its
    result holds no NaN, and a pair that validateCoordinates accepts is
    still accepted after sanitizing. *)
Theorem sanitizeCoordinates_keeps_valid (lng lat : float) :
  sanitizeCoordinates (sanitizeCoordinates [lng; lat]) = sanitizeCoordinates [lng; lat] /\
  Forall (fun c => is_nan c = false) (sanitizeCoordinates [lng; lat]) /\
  (validateCoordinates lat lng = true ->
   exists lng' lat', sanitizeCoordinates [lng; lat] = [lng'; lat'] /\
                     validateCoordinates lat' lng' = true).
Proof.
  split; [|split].
  - cbn. rewrite !or_0_parseFloat_idem. reflexivity.
  - cbn. repeat constructor; apply or_0_not_nan.
  - intros Hv. eexists _, _. split; [reflexivity|].
    rewrite validateCoordinates_parsed in *.
    rewrite !or_0_not_nan. cbn [negb andb].
    destruct (is_nan lat) eqn:Hlat; [discriminate|].
    destruct (is_nan lng) eqn:Hlng; [discriminate|].
    rewrite !leb_or_0_r, !leb_or_0_l by assumption. exact Hv.
Qed.

Lemma leb_refl_not_nan (x : float) : is_nan x = false -> (x <=? x)%float = true.
Proof.
  intros Hn. apply (ltb_false_iff_leb x x Hn Hn).
  rewrite FloatAxioms.ltb_spec. unfold SFltb.
  pose proof (SFcompare_antisym (Prim2SF x) (Prim2SF x)) as Ha.
  destruct (SFcompare (Prim2SF x) (Prim2SF x)) as [[ | | ]|]; cbn in Ha;
    congruence.
Qed.

Lemma leb_true_not_nan (x y : float) :
  (x <=? y)%float = true -> is_nan x = false /\ is_nan y = false.
Proof.
  rewrite FloatAxioms.leb_spec. intros H. split.
  - destruct (is_nan x) eqn:Hn; [|reflexivity].
    apply is_nan_Prim2SF in Hn. rewrite Hn in H. discriminate.
  - destruct (is_nan y) eqn:Hn; [|reflexivity].
    rewrite <- FloatAxioms.leb_spec in H. rewrite (leb_nan_r x y Hn) in H.
    discriminate.
Qed.

Lemma ltb_parseFloat_l (c x : float) :
  (parseFloat x <? c)%float = (x <? c)%float.
Proof.
  unfold parseFloat. destruct (x =? 0)%float eqn:Hz; [|reflexivity].
  destruct (eqb_0_zero x Hz) as [s Hs].
  rewrite !FloatAxioms.ltb_spec, Hs. change (Prim2SF 0) with (S754_zero false).
  unfold SFltb. destruct (Prim2SF c) as [sc | sc | | sc mc ec]; reflexivity.
Qed.

Lemma ltb_parseFloat_r (c x : float) :
  (c <? parseFloat x)%float = (c <? x)%float.
Proof.
  unfold parseFloat. destruct (x =? 0)%float eqn:Hz; [|reflexivity].
  destruct (eqb_0_zero x Hz) as [s Hs].
  rewrite !FloatAxioms.ltb_spec, Hs. change (Prim2SF 0) with (S754_zero false).
  unfold SFltb. destruct (Prim2SF c) as [sc | sc | | sc mc ec]; reflexivity.
Qed.

(** X9.  With bounds min <= max, sanitizeNumber answers null exactly on
    NaN and otherwise a number between min and max, which is the input
    (as parseFloat reads it) when the input is within the bounds. *)
Theorem sanitizeNumber_clamps (input lo hi : float) :
  (lo <=? hi)%float = true ->
  match sanitizeNumber input (Some lo) (Some hi) with
  | None => is_nan input = true
  | Some r =>
      is_nan input = false /\
      (lo <=? r)%float = true /\ (r <=? hi)%float = true /\
      ((lo <=? input)%float = true -> (input <=? hi)%float = true ->
       r = parseFloat input)
  end.
Proof.
  intros Hb. destruct (leb_true_not_nan _ _ Hb) as [Hlo Hhi].
  unfold sanitizeNumber. cbn zeta. rewrite is_nan_parseFloat.
  destruct (is_nan input) eqn:Hn; [reflexivity|].
  rewrite ltb_parseFloat_l, ltb_parseFloat_r.
  destruct (input <? lo)%float eqn:Hl.
  - split; [reflexivity|]. split; [apply leb_refl_not_nan, Hlo|].
    split; [exact Hb|]. intros Hin _.
    apply (ltb_false_iff_leb input lo Hn Hlo) in Hin. congruence.
  - destruct (hi <? input)%float eqn:Hh.
    + split; [reflexivity|]. split; [exact Hb|].
      split; [apply leb_refl_not_nan, Hhi|]. intros _ Hin.
      apply (ltb_false_iff_leb hi input Hhi Hn) in Hin. congruence.
    + split; [reflexivity|].
      rewrite leb_parseFloat_r, leb_parseFloat_l.
      split; [apply (ltb_false_iff_leb input lo Hn Hlo), Hl|].
      split; [apply (ltb_false_iff_leb hi input Hhi Hn), Hh|].
      reflexivity.
Qed.

(** The page limit of [sanitizeRequestBody], [sanitizeNumber(limit, 1, 100)],
    at 250. *)
Lemma sanitizeNumber_clamps_witness :
  (1 <=? 100)%float = true /\
  exists r, sanitizeNumber 250 (Some 1%float) (Some 100%float) = Some r /\
            (1 <=? r)%float = true /\ (r <=? 100)%float = true.
Proof.
  split; [reflexivity|].
  generalize (sanitizeNumber_clamps 250 1 100 eq_refl).
  destruct (sanitizeNumber 250 (Some 1%float) (Some 100%float)) as [r|].
  - intros (_ & H1 & H2 & _). exists r. auto.
  - discriminate.
Defined.

(** ** Identifiers in URLs *)

Lemma sanitizeObjectId_all_hex (id : string) : all_hex (sanitizeObjectId id) = true.
Proof.
  induction id as [|c s IH]; [reflexivity|]. cbn.
  destruct (is_hex c) eqn:Hc; [|exact IH]. cbn. rewrite Hc. exact IH.
Qed.

Lemma sanitizeObjectId_fixes_hex (id : string) :
  all_hex id = true -> sanitizeObjectId id = id.
Proof.
  induction id as [|c s IH]; [reflexivity|]. cbn.
  intros [Hc Hs]%andb_true_iff. rewrite Hc, (IH Hs). reflexivity.
Qed.

(** X10.  sanitizeObjectId leaves hexadecimal digits only, is
    idempotent, and does not change an id that validateObjectId lets
    through; a sanitized id passes validateObjectId exactly when 24
    digits are left. *)
Theorem sanitized_ids (id : string) :
  all_hex (sanitizeObjectId id) = true /\
  sanitizeObjectId (sanitizeObjectId id) = sanitizeObjectId id /\
  (validateObjectId id = Next tt -> sanitizeObjectId id = id) /\
  (validateObjectId (sanitizeObjectId id) = Next tt <->
   String.length (sanitizeObjectId id) = 24%nat).
Proof.
  split; [apply sanitizeObjectId_all_hex|].
  split; [apply sanitizeObjectId_fixes_hex, sanitizeObjectId_all_hex|].
  split.
  - unfold validateObjectId, objectIdRegex_test.
    destruct (String.length id =? 24)%nat; [|discriminate].
    destruct (all_hex id) eqn:Hh; [|discriminate].
    intros _. apply sanitizeObjectId_fixes_hex, Hh.
  - unfold validateObjectId, objectIdRegex_test.
    rewrite sanitizeObjectId_all_hex, andb_true_r.
    destruct (Nat.eqb_spec (String.length (sanitizeObjectId id)) 24);
      split; congruence.
Qed.

(** ** Tokens *)

Section RouteFacts.
Context `{JWT}.

Lemma auth_Next (a : option string) (s : Site) (u : ReqUser) :
  auth a s = Next u ->
  exists token,
    bearer a = Some token /\ token <> EmptyString /\
    (token ∉ blacklistedTokens s) /\
    jwt_verify token = Decoded (user_id u) /\
    is_Some (Users (site_db s) !! user_id u) /\
    user_role u = role_or_user (roles s !! user_id u).
Proof.
  unfold auth, isTokenBlacklisted.
  destruct (bearer a) as [[|c t]|]; try discriminate.
  case_bool_decide as Hb; [discriminate|].
  destruct (jwt_verify (String c t)) as [id| | |] eqn:Hv; try discriminate.
  destruct (Users (site_db s) !! id) as [usr|] eqn:Hu; [|discriminate].
  intros [= <-]. exists (String c t). cbn. rewrite Hu. eauto 10.
Qed.

(** [auth] reads the token blacklist, the users and their roles, and
    nothing else. *)
Lemma auth_ext (a : option string) (s s' : Site) :
  blacklistedTokens s' = blacklistedTokens s ->
  (forall id, is_Some (Users (site_db s') !! id) <-> is_Some (Users (site_db s) !! id)) ->
  roles s' = roles s ->
  auth a s' = auth a s.
Proof.
  intros Hb Hu Hr. unfold auth, isTokenBlacklisted.
  destruct (bearer a) as [[|c t]|]; try reflexivity.
  rewrite Hb. case_bool_decide; [reflexivity|].
  destruct (jwt_verify (String c t)) as [id| | |]; try reflexivity.
  rewrite Hr. specialize (Hu id).
  destruct (Users (site_db s') !! id), (Users (site_db s) !! id);
    try reflexivity.
  - destruct Hu as [Hu _]. destruct Hu as [? [=]]. eauto.
  - destruct Hu as [_ Hu]. destruct Hu as [? [=]]. eauto.
Qed.

Lemma auth_blacklisted (a : option string) (s : Site) (c : Ascii.ascii) (t : string) :
  bearer a = Some (String c t) ->
  String c t ∈ blacklistedTokens s ->
  auth a s = Refused 401 "Token invalidated.".
Proof.
  intros Hb Hin. unfold auth, isTokenBlacklisted. rewrite Hb.
  rewrite bool_decide_eq_true_2 by assumption. reflexivity.
Qed.

End RouteFacts.

Lemma role_or_user_admin (r : option string) :
  role_or_user r = "admin" -> r = Some "admin".
Proof.
  destruct r as [[|c t]|]; cbn; try discriminate. congruence.
Qed.

Lemma adminOnly_Next (u : ReqUser) :
  adminOnly u = Next tt -> user_role u = "admin".
Proof.
  unfold adminOnly. case_bool_decide; [trivial | discriminate].
Qed.

Lemma set_db_same (s : Site) : set_db (site_db s) s = s.
Proof. destruct s; reflexivity. Qed.

Section Effects.
Context `{JWT}.

Lemma logout_effect (a : option string) (s : Site) :
  effect s (fst (logout a s)).
Proof.
  unfold logout. destruct (bearer a) as [[|c t]|];
    try (apply effect_none; reflexivity).
  apply (effect_logout _ _ (String c t)); [discriminate | reflexivity].
Qed.

Lemma bookmark_post_effect (a : option string) (id : string) (s : Site) :
  effect s (fst (bookmark_post a id s)).
Proof.
  unfold bookmark_post.
  destruct (auth a s) as [u|]; [|apply effect_none; reflexivity].
  destruct (validateObjectId id); [|apply effect_none; reflexivity].
  destruct (Places _ !! _); [|apply effect_none; reflexivity].
  destruct (Users _ !! _) eqn:Hu; [|apply effect_none; reflexivity].
  eapply effect_bookmarks; [rewrite Hu; eauto | left; reflexivity | reflexivity].
Qed.

Lemma bookmark_delete_effect (a : option string) (id : string) (s : Site) :
  effect s (fst (bookmark_delete a id s)).
Proof.
  unfold bookmark_delete.
  destruct (auth a s) as [u|]; [|apply effect_none; reflexivity].
  destruct (validateObjectId id); [|apply effect_none; reflexivity].
  destruct (Users _ !! _) eqn:Hu; [|apply effect_none; reflexivity].
  eapply effect_bookmarks; [rewrite Hu; eauto | right; reflexivity | reflexivity].
Qed.

Lemma places_redeem_effect (a : option string) (id : string) (now : Date)
    (s : Site) :
  effect s (fst (places_redeem a id now s)).
Proof.
  unfold places_redeem.
  destruct (auth a s) as [u|]; [|apply effect_none; reflexivity].
  destruct (validateObjectId id); [|apply effect_none; reflexivity].
  match goal with |- context [place_redeem ?r ?d] =>
    pose proof (place_redeem_ledger_step r d) as Hl;
    pose proof (place_redeem_extends r d) as He;
    destruct (place_redeem r d) as [db' r'] end.
  eapply effect_ledger; [exact Hl | exact He | reflexivity].
Qed.

Lemma rewards_redeem_effect (a : option string) (id : string)
    (n1 n2 n3 : Date) (s : Site) :
  effect s (fst (rewards_redeem a id n1 n2 n3 s)).
Proof.
  unfold rewards_redeem.
  destruct (auth a s) as [u|]; [|apply effect_none; reflexivity].
  destruct (validateObjectId id); [|apply effect_none; reflexivity].
  match goal with |- context [reward_redeem ?r ?d] =>
    pose proof (reward_redeem_ledger_step r d) as Hl;
    pose proof (reward_redeem_extends r d) as He;
    destruct (reward_redeem r d) as [db' r'] end.
  eapply effect_ledger; [exact Hl | exact He | reflexivity].
Qed.

(** A deletion that is let through comes from a stored administrator. *)
Lemma admin_passed (a : option string) (s : Site) (u : ReqUser) :
  auth a s = Next u -> adminOnly u = Next tt ->
  roles s !! user_id u = Some "admin" /\
  is_Some (Users (site_db s) !! user_id u).
Proof.
  intros Ha Hadm. apply auth_Next in Ha as (token & _ & _ & _ & _ & Hu & Hr).
  apply adminOnly_Next in Hadm. rewrite Hr in Hadm.
  split; [apply role_or_user_admin, Hadm | exact Hu].
Qed.

Lemma places_delete_effect (a : option string) (id : string) (s : Site) :
  effect s (fst (places_delete a id s)).
Proof.
  unfold places_delete.
  destruct (auth a s) as [u|] eqn:Ha; [|apply effect_none; reflexivity].
  destruct (adminOnly u) as [[]|] eqn:Hadm; [|apply effect_none; reflexivity].
  destruct (validateObjectId id); [|apply effect_none; reflexivity].
  destruct (Places _ !! _); [|apply effect_none; reflexivity].
  destruct (admin_passed a s u Ha Hadm) as [Hr Hu].
  eapply effect_delete_place; [exact Hr | exact Hu | reflexivity].
Qed.

Lemma rewards_delete_effect (a : option string) (id : string) (s : Site) :
  effect s (fst (rewards_delete a id s)).
Proof.
  unfold rewards_delete.
  destruct (auth a s) as [u|] eqn:Ha; [|apply effect_none; reflexivity].
  destruct (adminOnly u) as [[]|] eqn:Hadm; [|apply effect_none; reflexivity].
  destruct (validateObjectId id); [|apply effect_none; reflexivity].
  destruct (Rewards _ !! _); [|apply effect_none; reflexivity].
  destruct (admin_passed a s u Ha Hadm) as [Hr Hu].
  eapply effect_delete_reward; [exact Hr | exact Hu | reflexivity].
Qed.

Lemma make_admin_effect (id : string) (s : Site) :
  effect s (fst (make_admin id s)).
Proof.
  unfold make_admin.
  destruct (castObjectId id) as [oid|]; [|apply effect_none; reflexivity].
  destruct (Users _ !! oid) eqn:Hu; [|apply effect_none; reflexivity].
  eapply effect_make_admin; [rewrite Hu; eauto | reflexivity].
Qed.

Lemma serve_effect (r : Request) (s : Site) : effect s (fst (serve r s)).
Proof.
  destruct r; cbn [serve]; unfold prod_map; cbn [fst].
  - apply logout_effect.
  - apply effect_none. unfold places_get.
    destruct (validateObjectId id); [|reflexivity].
    destruct (Places _ !! _); reflexivity.
  - apply effect_none. unfold rewards_get.
    destruct (validateObjectId id); [|reflexivity].
    destruct (Rewards _ !! _) as [rw|]; [|reflexivity].
    destruct (negb (isActive rw)); reflexivity.
  - apply bookmark_post_effect.
  - apply bookmark_delete_effect.
  - apply effect_none. unfold bookmarks_me.
    destruct (auth _ s); [|reflexivity]. destruct (Users _ !! _); reflexivity.
  - apply places_redeem_effect.
  - apply rewards_redeem_effect.
  - apply places_delete_effect.
  - apply rewards_delete_effect.
  - apply make_admin_effect.
  - apply effect_none. unfold users_points.
    destruct (auth _ s); [|reflexivity]. destruct (Users _ !! _); reflexivity.
  - apply effect_none. unfold users_is_admin.
    destruct (auth _ s); [|reflexivity]. destruct (Users _ !! _); reflexivity.
  - apply effect_none. unfold users_rewards.
    destruct (auth _ s); [|reflexivity].
    destruct (validateObjectId id); [|reflexivity].
    destruct (_ && _); [reflexivity|].
    destruct (Users _ !! _); reflexivity.
Qed.

(** A property of the site kept by every effect holds after any sequence
    of requests. *)
Lemma serve_all_invariant (P : Site -> Prop) (requests : list Request) (s : Site) :
  (forall s1 s2, effect s1 s2 -> P s1 -> P s2) ->
  P s -> P (serve_all requests s).
Proof.
  intros Hstep. revert s. unfold serve_all.
  induction requests as [|r rs IH]; intros s HP; [exact HP|].
  cbn. apply IH. apply (Hstep s); [apply serve_effect | exact HP].
Qed.

End Effects.

Section Tokens.
Context `{JWT}.

Lemma blacklistToken_elem (token t : string) (s : Site) :
  t ∈ blacklistedTokens s -> t ∈ blacklistedTokens (blacklistToken token s).
Proof.
  unfold blacklistToken. destruct (0 <? String.length token)%nat; [|trivial].
  cbn. set_solver.
Qed.

Lemma blacklistToken_self (c : Ascii.ascii) (t : string) (s : Site) :
  String c t ∈ blacklistedTokens (blacklistToken (String c t) s).
Proof. cbn. set_solver. Qed.

Lemma effect_blacklist (s s' : Site) (t : string) :
  effect s s' -> t ∈ blacklistedTokens s -> t ∈ blacklistedTokens s'.
Proof.
  intros [-> | token _ -> | uid x l _ _ -> | db' _ _ -> | adm oid _ _ ->
         | adm oid _ _ -> | oid _ ->] Hin; try exact Hin.
  apply blacklistToken_elem, Hin.
Qed.

(** X11.  Once POST /api/auth/logout has answered 'Logged out', auth
    refuses the Authorization header of that request with 401 'Token
    invalidated.' after any sequence of further requests, before the
    token is even verified; a logout without a token is answered 400 and
    changes nothing. *)
Theorem logged_out_token_stays_refused (a : option string)
    (requests : list Request) (s : Site) :
  (reply_success (snd (logout a s)) = true ->
   auth a (serve_all requests (fst (logout a s))) =
   Refused 401 "Token invalidated.") /\
  (reply_success (snd (logout a s)) = false ->
   logout a s = (s, refused 400 "No token to logout")).
Proof.
  unfold logout. destruct (bearer a) as [[|c t]|] eqn:Hb; cbn [fst snd];
    (split; [try discriminate | try discriminate; try reflexivity]).
  intros _. apply (auth_blacklisted a _ c t Hb).
  apply (serve_all_invariant (fun s => String c t ∈ blacklistedTokens s)).
  - intros s1 s2 He. apply effect_blacklist, He.
  - apply blacklistToken_self.
Qed.

End Tokens.

Example logout_sample :
  let a := Some "Bearer token-7" in
  let s1 := fst (@logout a sample_site) in
  @auth sample_jwt a sample_site = Next {| user_id := 7; user_role := "user" |} /\
  @auth sample_jwt a s1 = Refused 401 "Token invalidated." /\
  @auth sample_jwt (Some "Bearer token-9") s1 =
    Next {| user_id := 9; user_role := "admin" |} /\
  @auth sample_jwt (Some "bearer token-9") s1 =
    Refused 401 "Access denied. No token provided." /\
  @auth sample_jwt (Some "Bearer token-old") s1 = Refused 401 "Token expired.".
Proof. vm_compute. repeat split; reflexivity. Qed.

Section BehindAuth.
Context `{JWT}.

Lemma place_redeem_user_found (req : PlaceRedeemRequest) (db : DB) :
  is_Some (Users db !! predeem_user_id req) ->
  message (snd (place_redeem req db)) <> Text "User not found".
Proof.
  intros [u Hu]. rewrite place_redeem_run, Hu.
  destruct (Places db !! predeem_id req) as [place|]; [|discriminate].
  destruct (place_award place) as [n|]; [|discriminate].
  destruct (_ || _); discriminate.
Qed.

Lemma reward_redeem_user_found (req : RedeemRequest) (db : DB) :
  is_Some (Users db !! redeem_user_id req) ->
  message (snd (reward_redeem req db)) <> Text "User not found".
Proof.
  intros [u Hu]. rewrite reward_redeem_run, Hu.
  destruct (Rewards db !! redeem_id req) as [reward|]; [|discriminate].
  destruct (negb _); [discriminate|].
  destruct (reward_expired _ _); [discriminate|].
  destruct (_ <? _).
  - cbn. unfold insufficient_points. intros [=].
  - destruct (0 <=? _); discriminate.
Qed.

(** X12.  auth lets a request through only for a stored user, so behind
    it the 'user is gone' branches of the handlers are dead: the two
    redemption routes, the bookmark listing, the points and the is-admin
    routes never answer 'User not found', and the two bookmark updates
    never answer 'Server error'. *)
Theorem behind_auth_the_user_is_found (a : option string) (id : string)
    (n1 n2 n3 : Date) (s : Site) :
  message (snd (rewards_redeem a id n1 n2 n3 s)) <> Text "User not found" /\
  message (snd (places_redeem a id n1 s)) <> Text "User not found" /\
  reply_message (snd (bookmarks_me a s)) <> Some "User not found" /\
  reply_message (snd (users_points a s)) <> Some "User not found" /\
  reply_message (snd (users_is_admin a s)) <> Some "User not found" /\
  reply_message (snd (bookmark_post a id s)) <> Some "Server error" /\
  reply_message (snd (bookmark_delete a id s)) <> Some "Server error".
Proof.
  unfold rewards_redeem, places_redeem, bookmarks_me, users_points,
    users_is_admin, bookmark_post, bookmark_delete.
  destruct (auth a s) as [u | code msg] eqn:Ha.
  - apply auth_Next in Ha as (token & _ & _ & _ & _ & [usr Hu] & _).
    rewrite Hu.
    destruct (validateObjectId id) as [[]|code msg] eqn:Hv; cbn [fst snd].
    + repeat split; try discriminate.
      * match goal with |- context [reward_redeem ?r ?d] =>
          pose proof (reward_redeem_user_found r d) as Hr;
          destruct (reward_redeem r d) as [db' r'] end.
        apply Hr. cbn. eauto.
      * match goal with |- context [place_redeem ?r ?d] =>
          pose proof (place_redeem_user_found r d) as Hr;
          destruct (place_redeem r d) as [db' r'] end.
        apply Hr. cbn. eauto.
      * destruct (Places _ !! _); discriminate.
    + unfold validateObjectId in Hv.
      destruct (objectIdRegex_test id); [discriminate|].
      injection Hv as <- <-. repeat split; discriminate.
  - unfold auth in Ha.
    destruct (bearer a) as [[|c t]|];
      [| destruct (isTokenBlacklisted _ s);
         [| destruct (jwt_verify _);
            [destruct (Users _ !! _); [discriminate|] | | |]] |];
      injection Ha as <- <-; cbn; repeat split; discriminate.
Qed.

End BehindAuth.

(** ** Administrators *)

Ltac route_cases :=
  repeat match goal with
  | |- context [match ?x with _ => _ end] => destruct x eqn:?
  end.

Section Admins.
Context `{JWT}.

Lemma sent_by_admin_intro (a : option string) (s : Site) (u : ReqUser) :
  auth a s = Next u -> adminOnly u = Next tt -> sent_by_admin a s.
Proof.
  intros Ha Hadm. destruct (admin_passed a s u Ha Hadm) as [Hr Hu].
  apply auth_Next in Ha as (token & Hb & _ & Hbl & Hv & _ & _).
  exists token, (user_id u). auto.
Qed.

(** X13.  DELETE /api/places/:id and DELETE /api/rewards/:id either
    delete the stored document the id names, for a request that carries
    the unrevoked token of a stored user whose role is 'admin', or
    refuse and change nothing. *)
Theorem only_admins_delete (a : option string) (id : string) (s : Site) :
  (places_delete a id s =
     (set_db (delete_Place (ObjectId_of_hex id) (site_db s)) s,
      ok (Some "Place deleted successfully") NoPayload) /\
   sent_by_admin a s /\
   is_Some (Places (site_db s) !! ObjectId_of_hex id)
   \/
   fst (places_delete a id s) = s /\
   reply_success (snd (places_delete a id s)) = false) /\
  (rewards_delete a id s =
     (set_db (delete_Reward (ObjectId_of_hex id) (site_db s)) s,
      ok (Some "Reward deleted successfully") NoPayload) /\
   sent_by_admin a s /\
   is_Some (Rewards (site_db s) !! ObjectId_of_hex id)
   \/
   fst (rewards_delete a id s) = s /\
   reply_success (snd (rewards_delete a id s)) = false).
Proof.
  unfold places_delete, rewards_delete.
  destruct (auth a s) as [u|] eqn:Ha; [|split; right; split; reflexivity].
  destruct (adminOnly u) as [[]|] eqn:Hadm;
    [|split; right; split; reflexivity].
  destruct (validateObjectId id); [|split; right; split; reflexivity].
  pose proof (sent_by_admin_intro a s u Ha Hadm) as Hsent.
  split.
  - destruct (Places _ !! _) eqn:Hp; [|right; split; reflexivity].
    left. split; [reflexivity|]. split; [exact Hsent | eauto].
  - destruct (Rewards _ !! _) eqn:Hp; [|right; split; reflexivity].
    left. split; [reflexivity|]. split; [exact Hsent | eauto].
Qed.

Lemma serve_roles (r : Request) (s : Site) :
  is_MakeAdmin r = false -> roles (fst (serve r s)) = roles s.
Proof.
  destruct r; cbn [is_MakeAdmin]; try discriminate; intros _;
    cbn [serve]; unfold prod_map; cbn [fst];
    unfold logout, places_get, rewards_get, bookmark_post, bookmark_delete,
      bookmarks_me, places_redeem, rewards_redeem, places_delete,
      rewards_delete, users_points, users_is_admin, users_rewards,
      blacklistToken;
    route_cases; reflexivity.
Qed.

Lemma effect_documents (s s' : Site) :
  effect s s' ->
  (forall id, roles s !! id <> Some "admin") ->
  Places (site_db s') = Places (site_db s) /\
  Rewards (site_db s') = Rewards (site_db s).
Proof.
  intros [-> | token _ -> | uid x l _ _ -> | db' _ He -> | adm oid Hr _ ->
         | adm oid Hr _ -> | oid _ ->] Hno;
    try (split; reflexivity).
  - unfold blacklistToken. destruct (_ <? _)%nat; split; reflexivity.
  - destruct He as (HP & HR & _). split; assumption.
  - destruct (Hno _ Hr).
  - destruct (Hno _ Hr).
Qed.

(** X14.  While no user has the role 'admin', no sequence of requests to
    the modelled routes other than POST /api/users/make-admin/:id
    removes a place or a reward or changes a role. *)
Theorem without_admins_nothing_is_deleted (requests : list Request) (s : Site) :
  (forall id, roles s !! id <> Some "admin") ->
  forallb (fun r => negb (is_MakeAdmin r)) requests = true ->
  Places (site_db (serve_all requests s)) = Places (site_db s) /\
  Rewards (site_db (serve_all requests s)) = Rewards (site_db s) /\
  roles (serve_all requests s) = roles s.
Proof.
  revert s. unfold serve_all.
  induction requests as [|r rs IH]; intros s Hno Hall; [auto|].
  cbn in Hall. apply andb_true_iff in Hall as [Hr Hrs].
  apply negb_true_iff in Hr. cbn [fold_left].
  pose proof (serve_roles r s Hr) as Hroles.
  destruct (effect_documents _ _ (serve_effect r s) Hno) as [HP HR].
  destruct (IH (fst (serve r s))) as (HP' & HR' & Hroles').
  - intros id. rewrite Hroles. apply Hno.
  - exact Hrs.
  - repeat split; congruence.
Qed.

Lemma bearer_token (token : string) :
  bearer (Some ("Bearer " +:+ token)) = Some token.
Proof. destruct token; reflexivity. Qed.

Lemma validateObjectId_cast (id : string) :
  validateObjectId id = Next tt -> castObjectId id = Some (ObjectId_of_hex id).
Proof.
  unfold validateObjectId, castObjectId.
  destruct (objectIdRegex_test id); [reflexivity | discriminate].
Qed.

(** X15.  POST /api/users/make-admin/:id runs without auth: sent with
    the id of a stored user by anyone, it sets that user's role to
    'admin', after which a valid token of that user passes adminOnly and
    DELETE /api/places/:id deletes a stored place. *)
Theorem make_admin_needs_no_token (id token place : string) (s : Site) :
  validateObjectId id = Next tt ->
  is_Some (Users (site_db s) !! ObjectId_of_hex id) ->
  token <> EmptyString ->
  token ∉ blacklistedTokens s ->
  jwt_verify token = Decoded (ObjectId_of_hex id) ->
  validateObjectId place = Next tt ->
  is_Some (Places (site_db s) !! ObjectId_of_hex place) ->
  let s1 := fst (make_admin id s) in
  snd (make_admin id s) =
    ok (Some "User promoted to admin") (UserRole (ObjectId_of_hex id) "admin") /\
  roles s1 !! ObjectId_of_hex id = Some "admin" /\
  places_delete (Some ("Bearer " +:+ token)) place s1 =
    (set_db (delete_Place (ObjectId_of_hex place) (site_db s1)) s1,
     ok (Some "Place deleted successfully") NoPayload).
Proof.
  intros Hid [u Hu] Hne Hbl Hv Hplace [p Hp]. cbn zeta.
  unfold make_admin. rewrite (validateObjectId_cast id Hid), Hu. cbn [fst snd].
  split; [reflexivity|]. split; [cbn; apply lookup_insert_eq|].
  unfold places_delete, auth. rewrite bearer_token.
  destruct token as [|c t]; [congruence|].
  unfold isTokenBlacklisted. cbn [set_role blacklistedTokens site_db roles].
  rewrite bool_decide_eq_false_2 by assumption.
  rewrite Hv, Hu, lookup_insert_eq. cbn [role_or_user].
  unfold adminOnly. cbn [user_role].
  rewrite bool_decide_eq_true_2 by reflexivity.
  rewrite Hplace, Hp. reflexivity.
Qed.

End Admins.

Section Deleted.
Context `{JWT}.

Lemma places_delete_done (a : option string) (id : string) (s : Site) :
  reply_success (snd (places_delete a id s)) = true ->
  validateObjectId id = Next tt /\
  fst (places_delete a id s) =
  set_db (delete_Place (ObjectId_of_hex id) (site_db s)) s.
Proof.
  unfold places_delete.
  destruct (auth a s) as [u|]; [|discriminate].
  destruct (adminOnly u) as [[]|]; [|discriminate].
  destruct (validateObjectId id) as [[]|]; [|discriminate].
  destruct (Places _ !! _); [|discriminate]. auto.
Qed.

Lemma rewards_delete_done (a : option string) (id : string) (s : Site) :
  reply_success (snd (rewards_delete a id s)) = true ->
  validateObjectId id = Next tt /\
  fst (rewards_delete a id s) =
  set_db (delete_Reward (ObjectId_of_hex id) (site_db s)) s.
Proof.
  unfold rewards_delete.
  destruct (auth a s) as [u|]; [|discriminate].
  destruct (adminOnly u) as [[]|]; [|discriminate].
  destruct (validateObjectId id) as [[]|]; [|discriminate].
  destruct (Rewards _ !! _); [|discriminate]. auto.
Qed.

Lemma populate_deleted (oid : ObjectId) (ids : list ObjectId) (s : Site) :
  populate ids (set_db (delete_Place oid (site_db s)) s) =
  populate (pull oid ids) s.
Proof.
  unfold populate, pull. cbn [site_db set_db Places delete_Place].
  induction ids as [|i ids IH]; [reflexivity|].
  cbn [omap list_omap List.filter].
  destruct (N.eqb_spec i oid) as [-> | Hne]; cbn [negb].
  - rewrite lookup_delete_eq. exact IH.
  - rewrite lookup_delete_ne by congruence. cbn [omap list_omap].
    rewrite IH. reflexivity.
Qed.

(** X16.  After DELETE /api/places/:id has succeeded, GET
    /api/places/:id answers 404, redeeming at the place and bookmarking
    it are refused and write nothing, and the populated bookmark listing
    leaves the place out; the users, the ledger, the check-ins and the
    bookmark arrays are unchanged, so check-ins and bookmarks that refer
    to the place stay stored. *)
Theorem deleted_place_is_gone (a : option string) (id : string) (s : Site) :
  reply_success (snd (places_delete a id s)) = true ->
  let s' := fst (places_delete a id s) in
  snd (places_get id s') = refused 404 "Place not found" /\
  (forall a' now,
     fst (places_redeem a' id now s') = s' /\
     success (snd (places_redeem a' id now s')) = false) /\
  (forall a',
     fst (bookmark_post a' id s') = s' /\
     reply_success (snd (bookmark_post a' id s')) = false) /\
  (forall ids, populate ids s' = populate (pull (ObjectId_of_hex id) ids) s) /\
  Users (site_db s') = Users (site_db s) /\
  RewardHistories (site_db s') = RewardHistories (site_db s) /\
  Checkins (site_db s') = Checkins (site_db s) /\
  bookmarks s' = bookmarks s.
Proof.
  intros Hok. destruct (places_delete_done a id s Hok) as [Hid ->]. cbn zeta.
  set (s' := set_db _ s).
  assert (Hgone : Places (site_db s') !! ObjectId_of_hex id = None)
    by apply lookup_delete_eq.
  split; [unfold places_get; rewrite Hid, Hgone; reflexivity|].
  split.
  { intros a' now. unfold places_redeem.
    destruct (auth a' s'); [|split; reflexivity]. rewrite Hid.
    rewrite place_redeem_run. cbn [predeem_id]. rewrite Hgone.
    split; [apply set_db_same | reflexivity]. }
  split.
  { intros a'. unfold bookmark_post.
    destruct (auth a' s'); [|split; reflexivity]. rewrite Hid, Hgone.
    split; reflexivity. }
  split; [intros ids; apply populate_deleted|].
  repeat split.
Qed.

(** X17.  After DELETE /api/rewards/:id has succeeded, GET
    /api/rewards/:id answers 404 'Reward not found' and every redemption
    of the reward is refused and writes nothing, while the users keep
    their balances and redemption snapshots and the ledger keeps its
    entries. *)
Theorem deleted_reward_keeps_snapshots (a : option string) (id : string)
    (s : Site) :
  reply_success (snd (rewards_delete a id s)) = true ->
  let s' := fst (rewards_delete a id s) in
  snd (rewards_get id s') = refused 404 "Reward not found" /\
  (forall a' n1 n2 n3,
     fst (rewards_redeem a' id n1 n2 n3 s') = s' /\
     success (snd (rewards_redeem a' id n1 n2 n3 s')) = false) /\
  Users (site_db s') = Users (site_db s) /\
  RewardHistories (site_db s') = RewardHistories (site_db s) /\
  Places (site_db s') = Places (site_db s).
Proof.
  intros Hok. destruct (rewards_delete_done a id s Hok) as [Hid ->]. cbn zeta.
  set (s' := set_db _ s).
  assert (Hgone : Rewards (site_db s') !! ObjectId_of_hex id = None)
    by apply lookup_delete_eq.
  split; [unfold rewards_get; rewrite Hid, Hgone; reflexivity|].
  split.
  { intros a' n1 n2 n3. unfold rewards_redeem.
    destruct (auth a' s'); [|split; reflexivity]. rewrite Hid.
    rewrite reward_redeem_run. cbn [redeem_id]. rewrite Hgone.
    split; [apply set_db_same | reflexivity]. }
  repeat split.
Qed.

End Deleted.

(** ** Bookmarks *)

Lemma addToSet_elem (x : ObjectId) (l : list ObjectId) : x ∈ addToSet x l.
Proof.
  unfold addToSet. case_bool_decide; [assumption|].
  apply elem_of_app. right. apply list_elem_of_singleton. reflexivity.
Qed.

Lemma addToSet_NoDup (x : ObjectId) (l : list ObjectId) :
  NoDup l -> NoDup (addToSet x l).
Proof.
  intros Hl. unfold addToSet. case_bool_decide as Hin; [assumption|].
  apply NoDup_app. split; [assumption|]. split.
  - intros y Hy Hx. apply list_elem_of_singleton in Hx. congruence.
  - apply NoDup_singleton.
Qed.

Lemma pull_elem (x y : ObjectId) (l : list ObjectId) :
  y ∈ pull x l <-> y ∈ l /\ y <> x.
Proof.
  unfold pull. rewrite !list_elem_of_In, List.filter_In, negb_true_iff, N.eqb_neq.
  reflexivity.
Qed.

Lemma pull_NoDup (x : ObjectId) (l : list ObjectId) :
  NoDup l -> NoDup (pull x l).
Proof.
  induction 1 as [|y l Hy Hl IH]; [constructor|].
  change (pull x (y :: l)) with (if negb (y =? x)%N then y :: pull x l else pull x l).
  destruct (negb _); [|exact IH].
  constructor; [|exact IH]. rewrite pull_elem. tauto.
Qed.

Lemma pull_absent (x : ObjectId) (l : list ObjectId) : x ∉ l -> pull x l = l.
Proof.
  unfold pull. induction l as [|y l IH]; [reflexivity|].
  intros Hx. apply not_elem_of_cons in Hx as [Hne Hl]. cbn.
  destruct (N.eqb_spec y x) as [-> | _]; [congruence|]. cbn.
  rewrite (IH Hl). reflexivity.
Qed.

Lemma pull_addToSet (x : ObjectId) (l : list ObjectId) :
  pull x (addToSet x l) = pull x l.
Proof.
  unfold addToSet. case_bool_decide; [reflexivity|].
  unfold pull. rewrite List.filter_app. cbn. rewrite N.eqb_refl. cbn.
  apply app_nil_r.
Qed.

Lemma bookmarks_of_set (uid uid' : ObjectId) (l : list ObjectId) (s : Site) :
  bookmarks_of uid' (set_bookmarks uid l s) =
  if decide (uid' = uid) then l else bookmarks_of uid' s.
Proof.
  unfold bookmarks_of, set_bookmarks. cbn [bookmarks].
  destruct (decide (uid' = uid)) as [-> | Hne].
  - rewrite lookup_insert_eq. reflexivity.
  - rewrite lookup_insert_ne by congruence. reflexivity.
Qed.

Section Bookmarks.
Context `{JWT}.

Lemma effect_bookmarks_NoDup (s s' : Site) :
  effect s s' ->
  (forall uid, NoDup (bookmarks_of uid s)) ->
  forall uid, NoDup (bookmarks_of uid s').
Proof.
  intros [-> | token _ -> | uid x l _ Hl -> | db' _ _ -> | adm oid _ _ ->
         | adm oid _ _ -> | oid _ ->] Hnd uid'; try apply Hnd.
  - unfold blacklistToken. destruct (_ <? _)%nat; apply Hnd.
  - rewrite bookmarks_of_set. destruct (decide (uid' = uid)); [|apply Hnd].
    destruct Hl as [-> | ->]; [apply addToSet_NoDup | apply pull_NoDup];
      apply Hnd.
Qed.

(** X18.  If no user's bookmarks hold a place twice, they still do not
    after any sequence of requests to the modelled routes: $addToSet and
    $pull are the only writes to the array. *)
Theorem bookmarks_hold_no_duplicates (requests : list Request) (s : Site)
    (uid : ObjectId) :
  (forall uid', NoDup (bookmarks_of uid' s)) ->
  NoDup (bookmarks_of uid (serve_all requests s)).
Proof.
  intros Hnd.
  apply (serve_all_invariant (fun s => forall uid, NoDup (bookmarks_of uid s)));
    [apply effect_bookmarks_NoDup | exact Hnd].
Qed.

Lemma auth_set_bookmarks (a : option string) (uid : ObjectId)
    (l : list ObjectId) (s : Site) :
  auth a (set_bookmarks uid l s) = auth a s.
Proof. apply auth_ext; reflexivity. Qed.

(** X19.  For an authenticated caller and a stored place: after POST
    /:id/bookmark the place is among the caller's bookmarks; repeating
    the request changes nothing and gives the same answer; after DELETE
    /:id/bookmark the caller's bookmarks are the earlier ones without
    that place (the earlier ones exactly, if the place was not
    bookmarked before); the database is untouched. *)
Theorem bookmark_round_trip (a : option string) (id : string) (s : Site)
    (u : ReqUser) :
  auth a s = Next u ->
  validateObjectId id = Next tt ->
  is_Some (Places (site_db s) !! ObjectId_of_hex id) ->
  let oid := ObjectId_of_hex id in
  let s1 := fst (bookmark_post a id s) in
  let s2 := fst (bookmark_delete a id s1) in
  oid ∈ bookmarks_of (user_id u) s1 /\
  bookmark_post a id s1 = (s1, snd (bookmark_post a id s)) /\
  bookmarks_of (user_id u) s2 = pull oid (bookmarks_of (user_id u) s) /\
  (oid ∉ bookmarks_of (user_id u) s2) /\
  (oid ∉ bookmarks_of (user_id u) s ->
   bookmarks_of (user_id u) s2 = bookmarks_of (user_id u) s) /\
  site_db s2 = site_db s.
Proof.
  intros Ha Hid [p Hp]. cbn zeta.
  destruct (auth_Next a s u Ha) as (_ & _ & _ & _ & _ & [usr Hu] & _).
  set (oid := ObjectId_of_hex id) in *.
  set (l1 := addToSet oid (bookmarks_of (user_id u) s)).
  set (s1 := set_bookmarks (user_id u) l1 s).
  assert (Hpost : bookmark_post a id s =
                  (s1, ok (Some "Bookmarked") (BookmarkIds l1))).
  { unfold bookmark_post. rewrite Ha, Hid. fold oid. rewrite Hp, Hu.
    reflexivity. }
  rewrite !Hpost. cbn [fst snd].
  assert (Hl1 : bookmarks_of (user_id u) s1 = l1).
  { unfold s1. rewrite bookmarks_of_set, decide_True by reflexivity.
    reflexivity. }
  assert (Ha1 : auth a s1 = Next u)
    by (unfold s1; rewrite auth_set_bookmarks; exact Ha).
  assert (Hdel : fst (bookmark_delete a id s1) =
                 set_bookmarks (user_id u) (pull oid l1) s1).
  { unfold bookmark_delete. rewrite Ha1, Hid.
    change (site_db s1) with (site_db s). rewrite Hu, Hl1. reflexivity. }
  rewrite Hdel. rewrite bookmarks_of_set, decide_True by reflexivity.
  unfold l1 at 2 3 4. rewrite pull_addToSet.
  split; [rewrite Hl1; apply addToSet_elem|].
  split.
  { unfold bookmark_post. rewrite Ha1, Hid. fold oid.
    change (site_db s1) with (site_db s). rewrite Hp, Hu, Hl1.
    assert (Hsame : addToSet oid l1 = l1).
    { unfold addToSet at 1. rewrite bool_decide_eq_true_2; [reflexivity|].
      apply addToSet_elem. }
    rewrite Hsame. f_equal.
    unfold s1, set_bookmarks. cbn. rewrite insert_insert_eq. reflexivity. }
  split; [reflexivity|].
  split; [intros Hin; apply pull_elem in Hin as [_ Hne]; congruence|].
  split; [apply pull_absent | reflexivity].
Qed.

End Bookmarks.

(** ** Reward statistics *)

Section Statistics.
Context `{JWT}.

(** X20.  GET /api/users/:id/rewards compares req.user.id, an ObjectId,
    with the id string of the URL by !==, so every authenticated caller
    whose role is not 'admin' is answered 403, whichever id is asked
    for, the caller's own included. *)
Theorem own_rewards_are_refused (a : option string) (id : string) (s : Site)
    (u : ReqUser) :
  auth a s = Next u ->
  validateObjectId id = Next tt ->
  user_role u <> "admin" ->
  users_rewards a id s =
  (s, refused 403 "Access denied. You can only view your own rewards.").
Proof.
  intros Ha Hid Hrole. unfold users_rewards. rewrite Ha, Hid.
  rewrite bool_decide_eq_false_2 by assumption. reflexivity.
Qed.




End Statistics.

(** ** The theorems at the sample site *)

Definition sample_requests : list Request :=
  [ AddBookmark (Some "Bearer token-8") (sample_id "1");
    RedeemPlace (Some "Bearer token-8") (sample_id "1") 1700000040000;
    AddBookmark (Some "Bearer token-8") (sample_id "1");
    DeletePlace (Some "Bearer token-7") (sample_id "2");
    RedeemPlace (Some "Bearer token-8") (sample_id "1") 1700000050000;
    AddBookmark (Some "Bearer token-8") (sample_id "2");
    RemoveBookmark (Some "Bearer token-7") (sample_id "1");
    Logout (Some "Bearer token-8");
    RedeemPlace (Some "Bearer token-8") (sample_id "1") 1700000060000 ].

Example sample_requests_served :
  let s' := @serve_all sample_jwt sample_requests sample_site in
  bookmarks_of 8 s' = [1%N; 2%N] /\
  balance 8 (site_db s') = Some 50 /\
  ledger_sum 8 (site_db s') = 50 /\
  is_Some (Places (site_db s') !! 2%N) /\
  snd (@users_rewards sample_jwt (Some "Bearer token-9") (sample_id "8") s') =
    ok (Some "Reward data retrieved successfully")
       (Statistics 50 50 2 (Some 1700000040000) (Some 1700000050000)).
Proof. vm_compute. repeat split; eauto. Qed.

(** The same requests at a site without administrators. *)
Lemma without_admins_nothing_is_deleted_witness :
  let s := {| site_db := sample_db; roles := ∅; bookmarks := ∅;
              blacklistedTokens := ∅ |} in
  let requests :=
    DeletePlace (Some "Bearer token-9") (sample_id "1") :: sample_requests in
  Places (site_db (@serve_all sample_jwt requests s)) = Places (site_db s) /\
  Rewards (site_db (@serve_all sample_jwt requests s)) = Rewards (site_db s) /\
  roles (@serve_all sample_jwt requests s) = roles s.
Proof.
  refine (@without_admins_nothing_is_deleted sample_jwt _ _ _ _).
  - intros id. cbn [roles]. rewrite lookup_empty. discriminate.
  - reflexivity.
Defined.

(** User 7 is made an administrator and deletes place 1. *)
Lemma make_admin_needs_no_token_witness :
  let s1 := fst (@make_admin (sample_id "7") sample_site) in
  snd (@make_admin (sample_id "7") sample_site) =
    ok (Some "User promoted to admin")
       (UserRole (ObjectId_of_hex (sample_id "7")) "admin") /\
  roles s1 !! ObjectId_of_hex (sample_id "7") = Some "admin" /\
  @places_delete sample_jwt (Some ("Bearer " +:+ "token-7")) (sample_id "1") s1 =
    (set_db (delete_Place (ObjectId_of_hex (sample_id "1")) (site_db s1)) s1,
     ok (Some "Place deleted successfully") NoPayload).
Proof.
  refine (@make_admin_needs_no_token sample_jwt (sample_id "7") "token-7"
            (sample_id "1") sample_site _ _ _ _ _ _ _).
  - reflexivity.
  - vm_compute. eauto.
  - discriminate.
  - cbn. set_solver.
  - reflexivity.
  - reflexivity.
  - vm_compute. eauto.
Defined.

(** The administrator 9 deletes place 1. *)
Lemma deleted_place_is_gone_witness :
  reply_success
    (snd (@places_delete sample_jwt (Some "Bearer token-9") (sample_id "1")
            sample_site)) = true /\
  snd (@places_get (sample_id "1")
         (fst (@places_delete sample_jwt (Some "Bearer token-9") (sample_id "1")
                 sample_site))) = refused 404 "Place not found".
Proof.
  split; [reflexivity|].
  exact (proj1 (@deleted_place_is_gone sample_jwt (Some "Bearer token-9")
                  (sample_id "1") sample_site eq_refl)).
Defined.

(** The administrator 9 deletes reward 3. *)
Lemma deleted_reward_keeps_snapshots_witness :
  reply_success
    (snd (@rewards_delete sample_jwt (Some "Bearer token-9") (sample_id "3")
            sample_site)) = true /\
  snd (@rewards_get (sample_id "3")
         (fst (@rewards_delete sample_jwt (Some "Bearer token-9") (sample_id "3")
                 sample_site))) = refused 404 "Reward not found".
Proof.
  split; [reflexivity|].
  exact (proj1 (@deleted_reward_keeps_snapshots sample_jwt
                  (Some "Bearer token-9") (sample_id "3") sample_site eq_refl)).
Defined.

Lemma bookmarks_hold_no_duplicates_witness :
  NoDup (bookmarks_of 8 (@serve_all sample_jwt sample_requests sample_site)).
Proof.
  refine (@bookmarks_hold_no_duplicates sample_jwt sample_requests sample_site
            8%N _).
  intros uid. unfold bookmarks_of. cbn [bookmarks sample_site].
  rewrite lookup_empty. constructor.
Defined.

(** User 7 bookmarks place 1 and removes the bookmark. *)
Lemma bookmark_round_trip_witness :
  let a := Some "Bearer token-7" in
  let oid := ObjectId_of_hex (sample_id "1") in
  let s1 := fst (@bookmark_post sample_jwt a (sample_id "1") sample_site) in
  let s2 := fst (@bookmark_delete sample_jwt a (sample_id "1") s1) in
  oid ∈ bookmarks_of 7 s1 /\
  @bookmark_post sample_jwt a (sample_id "1") s1 =
    (s1, snd (@bookmark_post sample_jwt a (sample_id "1") sample_site)) /\
  bookmarks_of 7 s2 = pull oid (bookmarks_of 7 sample_site) /\
  (oid ∉ bookmarks_of 7 s2) /\
  (oid ∉ bookmarks_of 7 sample_site ->
   bookmarks_of 7 s2 = bookmarks_of 7 sample_site) /\
  site_db s2 = site_db sample_site.
Proof.
  refine (@bookmark_round_trip sample_jwt (Some "Bearer token-7")
            (sample_id "1") sample_site
            {| user_id := 7; user_role := "user" |} _ _ _).
  - vm_compute. reflexivity.
  - reflexivity.
  - vm_compute. eauto.
Defined.

(** User 7 asks for the rewards of user 7. *)
Lemma own_rewards_are_refused_witness :
  @auth sample_jwt (Some "Bearer token-7") sample_site =
    Next {| user_id := ObjectId_of_hex (sample_id "7"); user_role := "user" |} /\
  @users_rewards sample_jwt (Some "Bearer token-7") (sample_id "7") sample_site =
  (sample_site,
   refused 403 "Access denied. You can only view your own rewards.").
Proof.
  split; [vm_compute; reflexivity|].
  refine (@own_rewards_are_refused sample_jwt (Some "Bearer token-7")
            (sample_id "7") sample_site
            {| user_id := 7; user_role := "user" |} _ _ _).
  - vm_compute. reflexivity.
  - reflexivity.
  - discriminate.
Defined.


(** ** The leaderboard *)

Lemma merge_sorted_laws : @MongoSortLaws merge_sorted.
Proof.
  split; intros m; cbn.
  - apply merge_sort_Permutation.
  - apply StronglySorted_merge_sort.
    + intros x y z. unfold by_total_desc. lia.
    + intros x y. unfold by_total_desc. lia.
Qed.

Section LeaderboardFacts.
Context `{MongoSortLaws}.

(** X22.  GET /api/users/leaderboard lists three users (not five, as its
    comment says), or all of them when fewer are stored; no user twice;
    each with the stored total; and no stored user left out has more
    points than a listed one, whatever order the store gives to users of
    equal total. *)
Theorem leaderboard_is_top_three (s : Site) :
  exists top,
    users_leaderboard s = (s, ok None (Leaderboard top)) /\
    length top = Nat.min 3 (size (Users (site_db s))) /\
    NoDup (top.*1) /\
    (forall id t, (id, t) ∈ top -> balance id (site_db s) = Some t) /\
    (forall id t id' u',
       (id, t) ∈ top -> Users (site_db s) !! id' = Some u' ->
       id' ∉ top.*1 -> rewardPoints_total u' <= t).
Proof.
  unfold users_leaderboard.
  set (m := Users (site_db s)).
  pose proof (find_sorted_all m) as Hperm.
  pose proof (find_sorted_sorted m) as Hsorted.
  set (l := find_sorted m) in *.
  exists (map (fun x : ObjectId * User => (x.1, rewardPoints_total x.2)) (take 3 l)).
  split; [reflexivity|].
  assert (Hfst : (map (fun x : ObjectId * User => (x.1, rewardPoints_total x.2))
                      (take 3 l)).*1 = (take 3 l).*1).
  { rewrite <- list_fmap_compose. apply list_fmap_ext. intros _ [i u] _.
    reflexivity. }
  split; [|split; [|split]].
  - rewrite length_map, length_take. f_equal.
    rewrite Hperm. apply length_map_to_list.
  - rewrite Hfst. rewrite fmap_take.
    apply (sublist_NoDup (take 3 (l.*1)) (l.*1)); [|apply sublist_take].
    rewrite Hperm. apply NoDup_fst_map_to_list.
  - intros id t Hin. apply list_elem_of_fmap in Hin as ([i u] & [= -> ->] & Hin).
    apply elem_of_take in Hin as (k & Hk & _).
    apply list_elem_of_lookup_2 in Hk. rewrite Hperm in Hk.
    apply elem_of_map_to_list in Hk. unfold balance. fold m. rewrite Hk.
    reflexivity.
  - intros id t id' u' Hin Hu' Hout.
    apply list_elem_of_fmap in Hin as ([i u] & [= -> ->] & Hin).
    rewrite Hfst in Hout.
    assert (Hl : (id', u') ∈ l) by (rewrite Hperm; apply elem_of_map_to_list, Hu').
    rewrite <- (take_drop 3 l) in Hl, Hsorted.
    apply elem_of_app in Hl as [Hl | Hl].
    { destruct Hout. apply list_elem_of_fmap. exists (id', u'). auto. }
    apply StronglySorted_app in Hsorted as (Hord & _ & _).
    apply (Hord _ _ Hin Hl).
Qed.

End LeaderboardFacts.

Lemma leaderboard_is_top_three_witness :
  exists top,
    @users_leaderboard merge_sorted sample_site_of_four =
      (sample_site_of_four, ok None (Leaderboard top)) /\
    length top = Nat.min 3 (size (Users (site_db sample_site_of_four))) /\
    NoDup (top.*1) /\
    (forall id t, (id, t) ∈ top ->
       balance id (site_db sample_site_of_four) = Some t) /\
    (forall id t id' u',
       (id, t) ∈ top -> Users (site_db sample_site_of_four) !! id' = Some u' ->
       id' ∉ top.*1 -> rewardPoints_total u' <= t).
Proof.
  exact (@leaderboard_is_top_three merge_sorted merge_sorted_laws
           sample_site_of_four).
Defined.

Example leaderboard_of_four :
  snd (@users_leaderboard merge_sorted sample_site_of_four) =
  ok None (Leaderboard [(9%N, 100); (10%N, 70); (7%N, 50)]).
Proof. vm_compute. reflexivity. Qed.
